(** * Dashboard.tsx: task list state, filtering, statistics and remote calls

    A shallow embedding of [src/pages/Dashboard.tsx].  The pure parts of the
    component ([filteredTasks], [taskStats], the JavaScript string primitives
    they use) are Rocq functions; the asynchronous handlers ([loadTasks],
    [loadProfile], [handleCreateTask], ...) are programs in a small free monad
    whose instructions are the remote calls of [@/lib/supabase], the toast
    hook, [console.error] and the React state setters.  The remote service is
    not part of the component: the interpreter takes it as a parameter. *)

From Stdlib Require Import String Ascii List Bool Arith Lia NArith.
From ExtLib Require Import Structures.Monad.
Import ListNotations.
Import MonadNotation.

Set Implicit Arguments.

Local Open Scope string_scope.
Local Open Scope monad_scope.

(** ** JavaScript string primitives

    A string of the program is a sequence of UTF-16 code units.  The model
    holds a well-formed string as its UTF-8 bytes, one [ascii] per byte,
    which is what a string literal of this file denotes.  Two well-formed
    strings are equal exactly when their bytes are, and one occurs in the
    other as code units exactly when it does as bytes, since both
    encodings are self-synchronising; a string with an unpaired surrogate
    has no counterpart here.  [toLowerCase] and [trim] work on code
    points: they decode, transform and encode again. *)
Module Js.

(** A byte that is part of no well-formed sequence is kept, as a value
    above the last code point. *)
Definition strayBase : N := 1114112.

Definition isContinuation (b : N) : bool := ((128 <=? b) && (b <=? 191))%N.

(** The code points of a string. *)
Fixpoint decode (s : string) : list N :=
  match s with
  | EmptyString => []
  | String a0 s1 =>
      let b0 := N_of_ascii a0 in
      let stray := (strayBase + b0)%N :: decode s1 in
      if (b0 <? 128)%N then b0 :: decode s1
      else
        match s1 with
        | EmptyString => stray
        | String a1 s2 =>
            let b1 := N_of_ascii a1 in
            if ((194 <=? b0) && (b0 <=? 223) && isContinuation b1)%N
            then ((b0 - 192) * 64 + (b1 - 128))%N :: decode s2
            else
              match s2 with
              | EmptyString => stray
              | String a2 s3 =>
                  let b2 := N_of_ascii a2 in
                  let c3 := ((b0 - 224) * 4096 + (b1 - 128) * 64 + (b2 - 128))%N in
                  if ((224 <=? b0) && (b0 <=? 239) && isContinuation b1
                      && isContinuation b2 && (2048 <=? c3)
                      && negb ((55296 <=? c3) && (c3 <=? 57343)))%N
                  then c3 :: decode s3
                  else
                    match s3 with
                    | EmptyString => stray
                    | String a3 s4 =>
                        let b3 := N_of_ascii a3 in
                        let c4 := ((b0 - 240) * 262144 + (b1 - 128) * 4096
                                   + (b2 - 128) * 64 + (b3 - 128))%N in
                        if ((240 <=? b0) && (b0 <=? 244) && isContinuation b1
                            && isContinuation b2 && isContinuation b3
                            && (65536 <=? c4) && (c4 <? strayBase))%N
                        then c4 :: decode s4
                        else stray
                    end
              end
        end
  end.

Definition byte (n : N) : ascii := ascii_of_N n.

(** The UTF-8 bytes of one code point, or the stray byte kept as it was. *)
Definition encodeOne (c : N) : string :=
  if (c <? 128)%N then String (byte c) EmptyString
  else if (c <? 2048)%N then
    String (byte (192 + c / 64)) (String (byte (128 + c mod 64)) EmptyString)
  else if (c <? 65536)%N then
    String (byte (224 + c / 4096))
      (String (byte (128 + (c / 64) mod 64))
         (String (byte (128 + c mod 64)) EmptyString))
  else if (c <? strayBase)%N then
    String (byte (240 + c / 262144))
      (String (byte (128 + (c / 4096) mod 64))
         (String (byte (128 + (c / 64) mod 64))
            (String (byte (128 + c mod 64)) EmptyString)))
  else String (byte (c - strayBase)) EmptyString.

Fixpoint encode (l : list N) : string :=
  match l with
  | [] => EmptyString
  | c :: l' => encodeOne c ++ encode l'
  end.

(** The simple lower-case mappings of the Unicode Character Database,
    version 14.0: an entry [(first, last, step, image)] sends the code
    points [first], [first + step], ... up to [last] to [image],
    [image + step], ...; every other code point is its own lower case. *)
Definition lowerTable : list (N * N * N * N) :=
  [
   (65, 90, 1, 97); (192, 214, 1, 224); (216, 222, 1, 248);
   (256, 302, 2, 257); (306, 310, 2, 307); (313, 327, 2, 314);
   (330, 374, 2, 331); (376, 376, 1, 255); (377, 381, 2, 378);
   (385, 385, 1, 595); (386, 388, 2, 387); (390, 390, 1, 596);
   (391, 391, 1, 392); (393, 394, 1, 598); (395, 395, 1, 396);
   (398, 398, 1, 477); (399, 399, 1, 601); (400, 400, 1, 603);
   (401, 401, 1, 402); (403, 403, 1, 608); (404, 404, 1, 611);
   (406, 406, 1, 617); (407, 407, 1, 616); (408, 408, 1, 409);
   (412, 412, 1, 623); (413, 413, 1, 626); (415, 415, 1, 629);
   (416, 420, 2, 417); (422, 422, 1, 640); (423, 423, 1, 424);
   (425, 425, 1, 643); (428, 428, 1, 429); (430, 430, 1, 648);
   (431, 431, 1, 432); (433, 434, 1, 650); (435, 437, 2, 436);
   (439, 439, 1, 658); (440, 440, 1, 441); (444, 444, 1, 445);
   (452, 452, 1, 454); (453, 453, 1, 454); (455, 455, 1, 457);
   (456, 456, 1, 457); (458, 458, 1, 460); (459, 475, 2, 460);
   (478, 494, 2, 479); (497, 497, 1, 499); (498, 500, 2, 499);
   (502, 502, 1, 405); (503, 503, 1, 447); (504, 542, 2, 505);
   (544, 544, 1, 414); (546, 562, 2, 547); (570, 570, 1, 11365);
   (571, 571, 1, 572); (573, 573, 1, 410); (574, 574, 1, 11366);
   (577, 577, 1, 578); (579, 579, 1, 384); (580, 580, 1, 649);
   (581, 581, 1, 652); (582, 590, 2, 583); (880, 882, 2, 881);
   (886, 886, 1, 887); (895, 895, 1, 1011); (902, 902, 1, 940);
   (904, 906, 1, 941); (908, 908, 1, 972); (910, 911, 1, 973);
   (913, 929, 1, 945); (931, 939, 1, 963); (975, 975, 1, 983);
   (984, 1006, 2, 985); (1012, 1012, 1, 952); (1015, 1015, 1, 1016);
   (1017, 1017, 1, 1010); (1018, 1018, 1, 1019); (1021, 1023, 1, 891);
   (1024, 1039, 1, 1104); (1040, 1071, 1, 1072); (1120, 1152, 2, 1121);
   (1162, 1214, 2, 1163); (1216, 1216, 1, 1231); (1217, 1229, 2, 1218);
   (1232, 1326, 2, 1233); (1329, 1366, 1, 1377); (4256, 4293, 1, 11520);
   (4295, 4295, 1, 11559); (4301, 4301, 1, 11565); (5024, 5103, 1, 43888);
   (5104, 5109, 1, 5112); (7312, 7354, 1, 4304); (7357, 7359, 1, 4349);
   (7680, 7828, 2, 7681); (7838, 7838, 1, 223); (7840, 7934, 2, 7841);
   (7944, 7951, 1, 7936); (7960, 7965, 1, 7952); (7976, 7983, 1, 7968);
   (7992, 7999, 1, 7984); (8008, 8013, 1, 8000); (8025, 8031, 2, 8017);
   (8040, 8047, 1, 8032); (8072, 8079, 1, 8064); (8088, 8095, 1, 8080);
   (8104, 8111, 1, 8096); (8120, 8121, 1, 8112); (8122, 8123, 1, 8048);
   (8124, 8124, 1, 8115); (8136, 8139, 1, 8050); (8140, 8140, 1, 8131);
   (8152, 8153, 1, 8144); (8154, 8155, 1, 8054); (8168, 8169, 1, 8160);
   (8170, 8171, 1, 8058); (8172, 8172, 1, 8165); (8184, 8185, 1, 8056);
   (8186, 8187, 1, 8060); (8188, 8188, 1, 8179); (8486, 8486, 1, 969);
   (8490, 8490, 1, 107); (8491, 8491, 1, 229); (8498, 8498, 1, 8526);
   (8544, 8559, 1, 8560); (8579, 8579, 1, 8580); (9398, 9423, 1, 9424);
   (11264, 11311, 1, 11312); (11360, 11360, 1, 11361); (11362, 11362, 1, 619);
   (11363, 11363, 1, 7549); (11364, 11364, 1, 637); (11367, 11371, 2, 11368);
   (11373, 11373, 1, 593); (11374, 11374, 1, 625); (11375, 11375, 1, 592);
   (11376, 11376, 1, 594); (11378, 11378, 1, 11379); (11381, 11381, 1, 11382);
   (11390, 11391, 1, 575); (11392, 11490, 2, 11393); (11499, 11501, 2, 11500);
   (11506, 11506, 1, 11507); (42560, 42604, 2, 42561); (42624, 42650, 2, 42625);
   (42786, 42798, 2, 42787); (42802, 42862, 2, 42803); (42873, 42875, 2, 42874);
   (42877, 42877, 1, 7545); (42878, 42886, 2, 42879); (42891, 42891, 1, 42892);
   (42893, 42893, 1, 613); (42896, 42898, 2, 42897); (42902, 42920, 2, 42903);
   (42922, 42922, 1, 614); (42923, 42923, 1, 604); (42924, 42924, 1, 609);
   (42925, 42925, 1, 620); (42926, 42926, 1, 618); (42928, 42928, 1, 670);
   (42929, 42929, 1, 647); (42930, 42930, 1, 669); (42931, 42931, 1, 43859);
   (42932, 42946, 2, 42933); (42948, 42948, 1, 42900); (42949, 42949, 1, 642);
   (42950, 42950, 1, 7566); (42951, 42953, 2, 42952); (42960, 42960, 1, 42961);
   (42966, 42968, 2, 42967); (42997, 42997, 1, 42998); (65313, 65338, 1, 65345);
   (66560, 66599, 1, 66600); (66736, 66771, 1, 66776); (66928, 66938, 1, 66967);
   (66940, 66954, 1, 66979); (66956, 66962, 1, 66995); (66964, 66965, 1, 67003);
   (68736, 68786, 1, 68800); (71840, 71871, 1, 71872); (93760, 93791, 1, 93792);
   (125184, 125217, 1, 125218)
  ]%N.

(** The ranges of the code points that are cased (Lowercase, Uppercase
    or titlecase letters) and not case-ignorable. *)
Definition casedTable : list (N * N) :=
  [
   (65, 90); (97, 122); (170, 170); (181, 181); (186, 186);
   (192, 214); (216, 246); (248, 442); (444, 447); (452, 659);
   (661, 687); (880, 883); (886, 887); (891, 893); (895, 895);
   (902, 902); (904, 906); (908, 908); (910, 929); (931, 1013);
   (1015, 1153); (1162, 1327); (1329, 1366); (1376, 1416); (4256, 4293);
   (4295, 4295); (4301, 4301); (4304, 4346); (4349, 4351); (5024, 5109);
   (5112, 5117); (7296, 7304); (7312, 7354); (7357, 7359); (7424, 7467);
   (7531, 7543); (7545, 7578); (7680, 7957); (7960, 7965); (7968, 8005);
   (8008, 8013); (8016, 8023); (8025, 8025); (8027, 8027); (8029, 8029);
   (8031, 8061); (8064, 8116); (8118, 8124); (8126, 8126); (8130, 8132);
   (8134, 8140); (8144, 8147); (8150, 8155); (8160, 8172); (8178, 8180);
   (8182, 8188); (8450, 8450); (8455, 8455); (8458, 8467); (8469, 8469);
   (8473, 8477); (8484, 8484); (8486, 8486); (8488, 8488); (8490, 8493);
   (8495, 8500); (8505, 8505); (8508, 8511); (8517, 8521); (8526, 8526);
   (8544, 8575); (8579, 8580); (9398, 9449); (11264, 11387); (11390, 11492);
   (11499, 11502); (11506, 11507); (11520, 11557); (11559, 11559); (11565, 11565);
   (42560, 42605); (42624, 42651); (42786, 42863); (42865, 42887); (42891, 42894);
   (42896, 42954); (42960, 42961); (42963, 42963); (42965, 42969); (42997, 42998);
   (43002, 43002); (43824, 43866); (43872, 43880); (43888, 43967); (64256, 64262);
   (64275, 64279); (65313, 65338); (65345, 65370); (66560, 66639); (66736, 66771);
   (66776, 66811); (66928, 66938); (66940, 66954); (66956, 66962); (66964, 66965);
   (66967, 66977); (66979, 66993); (66995, 67001); (67003, 67004); (68736, 68786);
   (68800, 68850); (71840, 71903); (93760, 93823); (119808, 119892); (119894, 119964);
   (119966, 119967); (119970, 119970); (119973, 119974); (119977, 119980); (119982, 119993);
   (119995, 119995); (119997, 120003); (120005, 120069); (120071, 120074); (120077, 120084);
   (120086, 120092); (120094, 120121); (120123, 120126); (120128, 120132); (120134, 120134);
   (120138, 120144); (120146, 120485); (120488, 120512); (120514, 120538); (120540, 120570);
   (120572, 120596); (120598, 120628); (120630, 120654); (120656, 120686); (120688, 120712);
   (120714, 120744); (120746, 120770); (120772, 120779); (122624, 122633); (122635, 122654);
   (125184, 125251); (127280, 127305); (127312, 127337); (127344, 127369)
  ]%N.

(** The ranges of the case-ignorable code points (marks, format
    characters, modifier letters and symbols, and the punctuation that
    may stand inside a word). *)
Definition caseIgnorableTable : list (N * N) :=
  [
   (39, 39); (46, 46); (58, 58); (94, 94); (96, 96);
   (168, 168); (173, 173); (175, 175); (180, 180); (183, 184);
   (688, 879); (884, 885); (890, 890); (900, 901); (903, 903);
   (1155, 1161); (1369, 1369); (1375, 1375); (1425, 1469); (1471, 1471);
   (1473, 1474); (1476, 1477); (1479, 1479); (1524, 1524); (1536, 1541);
   (1552, 1562); (1564, 1564); (1600, 1600); (1611, 1631); (1648, 1648);
   (1750, 1757); (1759, 1768); (1770, 1773); (1807, 1807); (1809, 1809);
   (1840, 1866); (1958, 1968); (2027, 2037); (2042, 2042); (2045, 2045);
   (2070, 2093); (2137, 2139); (2184, 2184); (2192, 2193); (2200, 2207);
   (2249, 2306); (2362, 2362); (2364, 2364); (2369, 2376); (2381, 2381);
   (2385, 2391); (2402, 2403); (2417, 2417); (2433, 2433); (2492, 2492);
   (2497, 2500); (2509, 2509); (2530, 2531); (2558, 2558); (2561, 2562);
   (2620, 2620); (2625, 2626); (2631, 2632); (2635, 2637); (2641, 2641);
   (2672, 2673); (2677, 2677); (2689, 2690); (2748, 2748); (2753, 2757);
   (2759, 2760); (2765, 2765); (2786, 2787); (2810, 2815); (2817, 2817);
   (2876, 2876); (2879, 2879); (2881, 2884); (2893, 2893); (2901, 2902);
   (2914, 2915); (2946, 2946); (3008, 3008); (3021, 3021); (3072, 3072);
   (3076, 3076); (3132, 3132); (3134, 3136); (3142, 3144); (3146, 3149);
   (3157, 3158); (3170, 3171); (3201, 3201); (3260, 3260); (3263, 3263);
   (3270, 3270); (3276, 3277); (3298, 3299); (3328, 3329); (3387, 3388);
   (3393, 3396); (3405, 3405); (3426, 3427); (3457, 3457); (3530, 3530);
   (3538, 3540); (3542, 3542); (3633, 3633); (3636, 3642); (3654, 3662);
   (3761, 3761); (3764, 3772); (3782, 3782); (3784, 3789); (3864, 3865);
   (3893, 3893); (3895, 3895); (3897, 3897); (3953, 3966); (3968, 3972);
   (3974, 3975); (3981, 3991); (3993, 4028); (4038, 4038); (4141, 4144);
   (4146, 4151); (4153, 4154); (4157, 4158); (4184, 4185); (4190, 4192);
   (4209, 4212); (4226, 4226); (4229, 4230); (4237, 4237); (4253, 4253);
   (4348, 4348); (4957, 4959); (5906, 5908); (5938, 5939); (5970, 5971);
   (6002, 6003); (6068, 6069); (6071, 6077); (6086, 6086); (6089, 6099);
   (6103, 6103); (6109, 6109); (6155, 6159); (6211, 6211); (6277, 6278);
   (6313, 6313); (6432, 6434); (6439, 6440); (6450, 6450); (6457, 6459);
   (6679, 6680); (6683, 6683); (6742, 6742); (6744, 6750); (6752, 6752);
   (6754, 6754); (6757, 6764); (6771, 6780); (6783, 6783); (6823, 6823);
   (6832, 6862); (6912, 6915); (6964, 6964); (6966, 6970); (6972, 6972);
   (6978, 6978); (7019, 7027); (7040, 7041); (7074, 7077); (7080, 7081);
   (7083, 7085); (7142, 7142); (7144, 7145); (7149, 7149); (7151, 7153);
   (7212, 7219); (7222, 7223); (7288, 7293); (7376, 7378); (7380, 7392);
   (7394, 7400); (7405, 7405); (7412, 7412); (7416, 7417); (7468, 7530);
   (7544, 7544); (7579, 7679); (8125, 8125); (8127, 8129); (8141, 8143);
   (8157, 8159); (8173, 8175); (8189, 8190); (8203, 8207); (8216, 8217);
   (8228, 8228); (8231, 8231); (8234, 8238); (8288, 8292); (8294, 8303);
   (8305, 8305); (8319, 8319); (8336, 8348); (8400, 8432); (11388, 11389);
   (11503, 11505); (11631, 11631); (11647, 11647); (11744, 11775); (11823, 11823);
   (12293, 12293); (12330, 12333); (12337, 12341); (12347, 12347); (12441, 12446);
   (12540, 12542); (40981, 40981); (42232, 42237); (42508, 42508); (42607, 42610);
   (42612, 42621); (42623, 42623); (42652, 42655); (42736, 42737); (42752, 42785);
   (42864, 42864); (42888, 42890); (42994, 42996); (43000, 43001); (43010, 43010);
   (43014, 43014); (43019, 43019); (43045, 43046); (43052, 43052); (43204, 43205);
   (43232, 43249); (43263, 43263); (43302, 43309); (43335, 43345); (43392, 43394);
   (43443, 43443); (43446, 43449); (43452, 43453); (43471, 43471); (43493, 43494);
   (43561, 43566); (43569, 43570); (43573, 43574); (43587, 43587); (43596, 43596);
   (43632, 43632); (43644, 43644); (43696, 43696); (43698, 43700); (43703, 43704);
   (43710, 43711); (43713, 43713); (43741, 43741); (43756, 43757); (43763, 43764);
   (43766, 43766); (43867, 43871); (43881, 43883); (44005, 44005); (44008, 44008);
   (44013, 44013); (64286, 64286); (64434, 64450); (65024, 65039); (65043, 65043);
   (65056, 65071); (65106, 65106); (65109, 65109); (65279, 65279); (65287, 65287);
   (65294, 65294); (65306, 65306); (65342, 65342); (65344, 65344); (65392, 65392);
   (65438, 65439); (65507, 65507); (65529, 65531); (66045, 66045); (66272, 66272);
   (66422, 66426); (67456, 67461); (67463, 67504); (67506, 67514); (68097, 68099);
   (68101, 68102); (68108, 68111); (68152, 68154); (68159, 68159); (68325, 68326);
   (68900, 68903); (69291, 69292); (69446, 69456); (69506, 69509); (69633, 69633);
   (69688, 69702); (69744, 69744); (69747, 69748); (69759, 69761); (69811, 69814);
   (69817, 69818); (69821, 69821); (69826, 69826); (69837, 69837); (69888, 69890);
   (69927, 69931); (69933, 69940); (70003, 70003); (70016, 70017); (70070, 70078);
   (70089, 70092); (70095, 70095); (70191, 70193); (70196, 70196); (70198, 70199);
   (70206, 70206); (70367, 70367); (70371, 70378); (70400, 70401); (70459, 70460);
   (70464, 70464); (70502, 70508); (70512, 70516); (70712, 70719); (70722, 70724);
   (70726, 70726); (70750, 70750); (70835, 70840); (70842, 70842); (70847, 70848);
   (70850, 70851); (71090, 71093); (71100, 71101); (71103, 71104); (71132, 71133);
   (71219, 71226); (71229, 71229); (71231, 71232); (71339, 71339); (71341, 71341);
   (71344, 71349); (71351, 71351); (71453, 71455); (71458, 71461); (71463, 71467);
   (71727, 71735); (71737, 71738); (71995, 71996); (71998, 71998); (72003, 72003);
   (72148, 72151); (72154, 72155); (72160, 72160); (72193, 72202); (72243, 72248);
   (72251, 72254); (72263, 72263); (72273, 72278); (72281, 72283); (72330, 72342);
   (72344, 72345); (72752, 72758); (72760, 72765); (72767, 72767); (72850, 72871);
   (72874, 72880); (72882, 72883); (72885, 72886); (73009, 73014); (73018, 73018);
   (73020, 73021); (73023, 73029); (73031, 73031); (73104, 73105); (73109, 73109);
   (73111, 73111); (73459, 73460); (78896, 78904); (92912, 92916); (92976, 92982);
   (92992, 92995); (94031, 94031); (94095, 94111); (94176, 94177); (94179, 94180);
   (110576, 110579); (110581, 110587); (110589, 110590); (113821, 113822); (113824, 113827);
   (118528, 118573); (118576, 118598); (119143, 119145); (119155, 119170); (119173, 119179);
   (119210, 119213); (119362, 119364); (121344, 121398); (121403, 121452); (121461, 121461);
   (121476, 121476); (121499, 121503); (121505, 121519); (122880, 122886); (122888, 122904);
   (122907, 122913); (122915, 122916); (122918, 122922); (123184, 123197); (123566, 123566);
   (123628, 123631); (125136, 125142); (125252, 125259); (127995, 127999); (917505, 917505);
   (917536, 917631); (917760, 917999)
  ]%N.

Fixpoint inRanges (c : N) (t : list (N * N)) : bool :=
  match t with
  | [] => false
  | (first, last) :: t' => ((first <=? c) && (c <=? last))%N || inRanges c t'
  end.

Definition isCased (c : N) : bool := inRanges c casedTable.

Definition isCaseIgnorable (c : N) : bool := inRanges c caseIgnorableTable.

Fixpoint lookupLower (c : N) (t : list (N * N * N * N)) : N :=
  match t with
  | [] => c
  | (first, last, step, image) :: t' =>
      if ((first <=? c) && (c <=? last) && ((c - first) mod step =? 0))%N
      then (image + (c - first))%N
      else lookupLower c t'
  end.

(** The lower case of one code point where no context matters: the
    simple mapping, and the one unconditional special casing, of the
    capital I with dot above to i and a combining dot above. *)
Definition lowerOf (c : N) : list N :=
  if (c =? 304)%N then [105; 775]%N else [lookupLower c lowerTable].

(** Whether a cased letter follows, case-ignorable code points apart. *)
Fixpoint casedFollows (l : list N) : bool :=
  match l with
  | [] => false
  | c :: l' => if isCaseIgnorable c then casedFollows l' else isCased c
  end.

(** Lower-casing from left to right.  [casedBefore] tells whether a cased
    letter precedes, case-ignorable code points apart.  A capital sigma
    between a cased letter before it and none after it becomes the final
    small sigma, any other capital sigma the small sigma. *)
Fixpoint lowerFrom (casedBefore : bool) (l : list N) : list N :=
  match l with
  | [] => []
  | c :: l' =>
      (if (c =? 931)%N
       then [if casedBefore && negb (casedFollows l') then 962 else 963]%N
       else lowerOf c)
      ++ lowerFrom (if isCaseIgnorable c then casedBefore else isCased c) l'
  end.

(** [s.toLowerCase()]: the default case conversion of Unicode. *)
Definition toLowerCase (s : string) : string :=
  encode (lowerFrom false (decode s)).

(** [s.startsWith(t)] *)
Fixpoint startsWith (s t : string) {struct t} : bool :=
  match t with
  | EmptyString => true
  | String b t' =>
      match s with
      | EmptyString => false
      | String a s' => Ascii.eqb a b && startsWith s' t'
      end
  end.

(** [s.includes(t)]: [t] occurs in [s] at some position. *)
Fixpoint includes (s t : string) : bool :=
  match s with
  | EmptyString => startsWith EmptyString t
  | String _ s' => startsWith s t || includes s' t
  end.

(** The white space and line terminators that [trim] strips: TAB, LF,
    VT, FF, CR, the space separators of Unicode, the line and paragraph
    separators and the byte order mark. *)
Definition isWhiteSpace (c : N) : bool :=
  ((9 <=? c) && (c <=? 13) || (c =? 32) || (c =? 160) || (c =? 5760)
   || (8192 <=? c) && (c <=? 8202) || (c =? 8232) || (c =? 8233)
   || (c =? 8239) || (c =? 8287) || (c =? 12288) || (c =? 65279))%N.

Fixpoint dropLeading (l : list N) : list N :=
  match l with
  | [] => []
  | c :: l' => if isWhiteSpace c then dropLeading l' else l
  end.

Fixpoint dropTrailing (l : list N) : list N :=
  match l with
  | [] => []
  | c :: l' =>
      match dropTrailing l' with
      | [] => if isWhiteSpace c then [] else [c]
      | r => c :: r
      end
  end.

(** [s.trim()] *)
Definition trim (s : string) : string :=
  encode (dropTrailing (dropLeading (decode s))).

(** Truthiness of a string: every string but the empty one. *)
Definition truthy (s : string) : bool := negb (s =? "").

(** [s || d] with strings on both sides. *)
Definition or_string (s d : string) : string := if truthy s then s else d.

(** [s || null] *)
Definition or_null (s : string) : option string :=
  if truthy s then Some s else None.

(** [o || d] where [o] is a string or [null]. *)
Definition nullable_or_string (o : option string) (d : string) : string :=
  match o with
  | Some s => or_string s d
  | None => d
  end.

End Js.

(** ** Data model *)

Module Task.
(** [interface Task].  [status] and [priority] are union types in the
    source, erased at run time: rows come from the remote service through
    the cast [as Task[]], so they are strings here. *)
Record t := Make {
  id : string;
  title : string;
  description : string;
  status : string;
  priority : string;
  due_date : option string;
  created_at : string;
  updated_at : string;
  user_id : string
}.
End Task.

Module Profile.
Record t := Make {
  id : string;
  first_name : string;
  last_name : string;
  email : string
}.
End Profile.

Module User.
(** The authenticated user of [useAuth()]; only [id] is read. *)
Record t := Make { id : string }.
End User.

Module TaskForm.
(** The [taskForm] edit buffer. *)
Record t := Make {
  title : string;
  description : string;
  status : string;
  priority : string;
  due_date : string
}.

(** The initial value of the buffer, to which the handlers reset it. *)
Definition empty : t :=
  {| title := ""; description := ""; status := "pending";
     priority := "medium"; due_date := "" |}.
End TaskForm.

Module ProfileForm.
Record t := Make {
  first_name : string;
  last_name : string;
  email : string
}.
End ProfileForm.

Module TaskData.
(** The object literal [taskData] built by [handleCreateTask]:
    [{...taskForm, user_id: user.id, due_date: taskForm.due_date || null}]. *)
Record t := Make {
  title : string;
  description : string;
  status : string;
  priority : string;
  due_date : option string;
  user_id : string
}.
End TaskData.

Module Toast.
(** Argument of [toast({...})]; [variant] is absent on success toasts. *)
Record t := Make {
  title : string;
  description : string;
  variant : option string
}.

(** A user-visible error notification is a toast of the destructive
    variant. *)
Definition isError (x : t) : bool :=
  match variant x with
  | Some v => v =? "destructive"
  | None => false
  end.
End Toast.

(** The error object of a remote response; only [message] is read. *)
Record RemoteError := { message : string }.

(** The [{ data, error }] pair every function of [@/lib/supabase] resolves
    to.  The two fields are independent: the handlers test [error] first. *)
Record Response (T : Type) := { data : option T; error : option RemoteError }.

Arguments data {T} _.
Arguments error {T} _.

Module Dashboard.
(** The values one render of the component closes over: the user of the
    auth context and the [useState] cells. *)
Record t := Make {
  user : option User.t;
  tasks : list Task.t;
  profile : option Profile.t;
  loading : bool;
  searchTerm : string;
  statusFilter : string;
  priorityFilter : string;
  isTaskDialogOpen : bool;
  isProfileDialogOpen : bool;
  editingTask : option Task.t;
  taskForm : TaskForm.t;
  profileForm : ProfileForm.t
}.

(** The state of the first render. *)
Definition initial (u : option User.t) : t :=
  {| user := u; tasks := []; profile := None; loading := true;
     searchTerm := ""; statusFilter := "all"; priorityFilter := "all";
     isTaskDialogOpen := false; isProfileDialogOpen := false;
     editingTask := None; taskForm := TaskForm.empty;
     profileForm := ProfileForm.Make "" "" "" |}.
End Dashboard.

Import Dashboard.

(** ** Derived values of a render *)

(** [const filteredTasks = tasks.filter(task => ...)] *)
Definition filteredTasks (d : Dashboard.t) : list Task.t :=
  filter
    (fun task =>
       let matchesSearch :=
         Js.includes (Js.toLowerCase (Task.title task)) (Js.toLowerCase (searchTerm d))
         || Js.includes (Js.toLowerCase (Task.description task))
                        (Js.toLowerCase (searchTerm d)) in
       let matchesStatus :=
         (statusFilter d =? "all") || (Task.status task =? statusFilter d) in
       let matchesPriority :=
         (priorityFilter d =? "all") || (Task.priority task =? priorityFilter d) in
       matchesSearch && matchesStatus && matchesPriority)
    (tasks d).

Module TaskStats.
Record t := Make {
  total : nat;
  completed : nat;
  pending : nat;
  inProgress : nat
}.
End TaskStats.

(** [const taskStats = { total: tasks.length, completed: ..., ... }] *)
Definition taskStats (d : Dashboard.t) : TaskStats.t :=
  {| TaskStats.total := length (tasks d);
     TaskStats.completed :=
       length (filter (fun t => Task.status t =? "completed") (tasks d));
     TaskStats.pending :=
       length (filter (fun t => Task.status t =? "pending") (tasks d));
     TaskStats.inProgress :=
       length (filter (fun t => Task.status t =? "in_progress") (tasks d)) |}.

(** The label of the profile button:
    [profile?.first_name ? `${profile.first_name} ${profile.last_name}` : 'Profile'] *)
Definition profileLabel (d : Dashboard.t) : string :=
  match profile d with
  | Some p =>
      if Js.truthy (Profile.first_name p)
      then Profile.first_name p ++ " " ++ Profile.last_name p
      else "Profile"
  | None => "Profile"
  end.

(** ** Remote calls and effects *)

(** The functions imported from [@/lib/supabase], with their arguments. *)
Inductive Call : Type :=
| getTasks (userId : string)
| createTask (taskData : TaskData.t)
| updateTask (id : string) (updates : TaskForm.t)
| deleteTask (id : string)
| getProfile (userId : string)
| updateProfile (userId : string) (updates : ProfileForm.t)
| signOut.

(** The [data] a call resolves to.  The mutating calls are destructured as
    [{ error }] only, so their data carries nothing. *)
Definition Data (c : Call) : Type :=
  match c with
  | getTasks _ => list Task.t
  | getProfile _ => Profile.t
  | _ => unit
  end.

(** What a handler can do besides computing: await a remote call, show a
    toast, log to the console, or call a state setter. *)
Inductive Eff : Type -> Type :=
| await (c : Call) : Eff (Response (Data c))
| toast (t : Toast.t) : Eff unit
| console_error (label : string) (e : RemoteError) : Eff unit
| setTasks (l : list Task.t) : Eff unit
| setProfile (p : option Profile.t) : Eff unit
| setProfileForm (f : ProfileForm.t) : Eff unit
| setTaskForm (f : TaskForm.t) : Eff unit
| setEditingTask (t : option Task.t) : Eff unit
| setIsTaskDialogOpen (b : bool) : Eff unit
| setIsProfileDialogOpen (b : bool) : Eff unit
| setLoading (b : bool) : Eff unit.

(** Handler bodies: finite trees of effects. *)
Inductive Prog (A : Type) : Type :=
| Ret (a : A)
| Do (X : Type) (e : Eff X) (k : X -> Prog A).

Arguments Ret {A} a.
Arguments Do {A X} e k.

Fixpoint Prog_bind {A B} (p : Prog A) (f : A -> Prog B) : Prog B :=
  match p with
  | Ret a => f a
  | Do e k => Do e (fun x => Prog_bind (k x) f)
  end.

#[export] Instance Monad_Prog : Monad Prog :=
  {| ret := @Ret; bind := @Prog_bind |}.

Definition perform {X} (e : Eff X) : Prog X := Do e Ret.

(** [return;] and the end of a handler body. *)
Definition done : Prog unit := Ret tt.

(** ** The handlers of the component

    Each handler is a function of the render it was created in: it reads
    [user], [taskForm], [editingTask] and [profileForm] from that render
    and reaches later state only through the setters.  Where a handler ends
    with a call of [loadTasks()] or [loadProfile()] that it does not await,
    nothing of the handler follows the call, and the callee is run in place:
    its effects come after the handler's own, in the order the event loop
    gives them when no other event is handled in between. *)

Definition errorToast (heading : string) (e : RemoteError) : Toast.t :=
  {| Toast.title := heading;
     Toast.description := message e;
     Toast.variant := Some "destructive" |}.

Definition successToast (heading detail : string) : Toast.t :=
  {| Toast.title := heading; Toast.description := detail; Toast.variant := None |}.

(** [const loadTasks = async () => {...}] *)
Definition loadTasks (d : Dashboard.t) : Prog unit :=
  match user d with
  | None => done
  | Some u =>
      r <- perform (await (getTasks (User.id u))) ;;
      match error r with
      | Some e => perform (toast (errorToast "Error loading tasks" e))
      | None =>
          perform (setTasks match data r with Some l => l | None => [] end)
      end
  end.

(** [const loadProfile = async () => {...}] *)
Definition loadProfile (d : Dashboard.t) : Prog unit :=
  match user d with
  | None => done
  | Some u =>
      r <- perform (await (getProfile (User.id u))) ;;
      match error r with
      | Some e => perform (console_error "Error loading profile:" e)
      | None =>
          match data r with
          | Some p =>
              perform (setProfile (Some p)) ;;
              perform (setProfileForm
                {| ProfileForm.first_name := Js.or_string (Profile.first_name p) "";
                   ProfileForm.last_name := Js.or_string (Profile.last_name p) "";
                   ProfileForm.email := Js.or_string (Profile.email p) "" |})
          | None => done
          end
      end
  end.

(** [const handleCreateTask = async () => {...}] *)
Definition handleCreateTask (d : Dashboard.t) : Prog unit :=
  match user d with
  | None => done
  | Some u =>
      if negb (Js.truthy (Js.trim (TaskForm.title (taskForm d)))) then done
      else
        let taskData :=
          {| TaskData.title := TaskForm.title (taskForm d);
             TaskData.description := TaskForm.description (taskForm d);
             TaskData.status := TaskForm.status (taskForm d);
             TaskData.priority := TaskForm.priority (taskForm d);
             TaskData.user_id := User.id u;
             TaskData.due_date := Js.or_null (TaskForm.due_date (taskForm d)) |} in
        r <- perform (await (createTask taskData)) ;;
        match error r with
        | Some e => perform (toast (errorToast "Error creating task" e))
        | None =>
            perform (toast (successToast "Task created"
                              "Your task has been created successfully.")) ;;
            perform (setTaskForm TaskForm.empty) ;;
            perform (setIsTaskDialogOpen false) ;;
            loadTasks d
        end
  end.

(** [const handleUpdateTask = async () => {...}] *)
Definition handleUpdateTask (d : Dashboard.t) : Prog unit :=
  match editingTask d with
  | None => done
  | Some task =>
      r <- perform (await (updateTask (Task.id task) (taskForm d))) ;;
      match error r with
      | Some e => perform (toast (errorToast "Error updating task" e))
      | None =>
          perform (toast (successToast "Task updated"
                            "Your task has been updated successfully.")) ;;
          perform (setEditingTask None) ;;
          perform (setTaskForm TaskForm.empty) ;;
          perform (setIsTaskDialogOpen false) ;;
          loadTasks d
      end
  end.

(** [const handleDeleteTask = async (taskId: string) => {...}] *)
Definition handleDeleteTask (taskId : string) (d : Dashboard.t) : Prog unit :=
  r <- perform (await (deleteTask taskId)) ;;
  match error r with
  | Some e => perform (toast (errorToast "Error deleting task" e))
  | None =>
      perform (toast (successToast "Task deleted"
                        "Your task has been deleted successfully.")) ;;
      loadTasks d
  end.

(** [const handleUpdateProfile = async () => {...}] *)
Definition handleUpdateProfile (d : Dashboard.t) : Prog unit :=
  match user d with
  | None => done
  | Some u =>
      r <- perform (await (updateProfile (User.id u) (profileForm d))) ;;
      match error r with
      | Some e => perform (toast (errorToast "Error updating profile" e))
      | None =>
          perform (toast (successToast "Profile updated"
                            "Your profile has been updated successfully.")) ;;
          perform (setIsProfileDialogOpen false) ;;
          loadProfile d
      end
  end.

(** [const handleSignOut = async () => {...}] *)
Definition handleSignOut (d : Dashboard.t) : Prog unit :=
  r <- perform (await signOut) ;;
  match error r with
  | Some e => perform (toast (errorToast "Error signing out" e))
  | None => done
  end.

(** [const openTaskDialog = (task?: Task) => {...}] *)
Definition openTaskDialog (task : option Task.t) (d : Dashboard.t) : Prog unit :=
  match task with
  | Some t =>
      perform (setEditingTask (Some t)) ;;
      perform (setTaskForm
        {| TaskForm.title := Task.title t;
           TaskForm.description := Task.description t;
           TaskForm.status := Task.status t;
           TaskForm.priority := Task.priority t;
           TaskForm.due_date := Js.nullable_or_string (Task.due_date t) "" |})
  | None =>
      perform (setEditingTask None) ;;
      perform (setTaskForm TaskForm.empty)
  end ;;
  perform (setIsTaskDialogOpen true).

(** The button of the task dialog:
    [onClick={editingTask ? handleUpdateTask : handleCreateTask}] *)
Definition submitTaskDialog (d : Dashboard.t) : Prog unit :=
  match editingTask d with
  | Some _ => handleUpdateTask d
  | None => handleCreateTask d
  end.

(** ** Running a handler *)

(** What a run leaves behind for the user and for the remote service. *)
Inductive Obs : Type :=
| Called (c : Call) (failure : option RemoteError)
| Toasted (t : Toast.t)
| Logged (label : string) (e : RemoteError).

(** The effect of a state setter on the state cells. *)
Definition setState {X} (e : Eff X) (d : Dashboard.t) : Dashboard.t :=
  match e with
  | setTasks l =>
      Dashboard.Make (user d) l (profile d) (loading d) (searchTerm d)
        (statusFilter d) (priorityFilter d) (isTaskDialogOpen d)
        (isProfileDialogOpen d) (editingTask d) (taskForm d) (profileForm d)
  | setProfile p =>
      Dashboard.Make (user d) (tasks d) p (loading d) (searchTerm d)
        (statusFilter d) (priorityFilter d) (isTaskDialogOpen d)
        (isProfileDialogOpen d) (editingTask d) (taskForm d) (profileForm d)
  | setProfileForm f =>
      Dashboard.Make (user d) (tasks d) (profile d) (loading d) (searchTerm d)
        (statusFilter d) (priorityFilter d) (isTaskDialogOpen d)
        (isProfileDialogOpen d) (editingTask d) (taskForm d) f
  | setTaskForm f =>
      Dashboard.Make (user d) (tasks d) (profile d) (loading d) (searchTerm d)
        (statusFilter d) (priorityFilter d) (isTaskDialogOpen d)
        (isProfileDialogOpen d) (editingTask d) f (profileForm d)
  | setEditingTask t =>
      Dashboard.Make (user d) (tasks d) (profile d) (loading d) (searchTerm d)
        (statusFilter d) (priorityFilter d) (isTaskDialogOpen d)
        (isProfileDialogOpen d) t (taskForm d) (profileForm d)
  | setIsTaskDialogOpen b =>
      Dashboard.Make (user d) (tasks d) (profile d) (loading d) (searchTerm d)
        (statusFilter d) (priorityFilter d) b
        (isProfileDialogOpen d) (editingTask d) (taskForm d) (profileForm d)
  | setIsProfileDialogOpen b =>
      Dashboard.Make (user d) (tasks d) (profile d) (loading d) (searchTerm d)
        (statusFilter d) (priorityFilter d) (isTaskDialogOpen d)
        b (editingTask d) (taskForm d) (profileForm d)
  | setLoading b =>
      Dashboard.Make (user d) (tasks d) (profile d) b (searchTerm d)
        (statusFilter d) (priorityFilter d) (isTaskDialogOpen d)
        (isProfileDialogOpen d) (editingTask d) (taskForm d) (profileForm d)
  | await _ | toast _ | console_error _ _ => d
  end.

(** What an effect shows outside the component, given the error field of
    the response when it is a remote call. *)
Definition observe {X} (e : Eff X) : X -> list Obs :=
  match e in Eff X return X -> list Obs with
  | await c => fun r => [Called c (error r)]
  | toast t => fun _ => [Toasted t]
  | console_error l err => fun _ => [Logged l err]
  | _ => fun _ => []
  end.

Module Run.
(** The outcome of a run: the state cells, the remote service and the
    observations in the order they were made. *)
Record t (World : Type) := Make {
  state : Dashboard.t;
  world : World;
  trace : list Obs
}.
End Run.

Section Semantics.

(** The remote service: any state, answering each call with a response
    and a next state. *)
Variable World : Type.
Variable remote : forall c : Call, World -> Response (Data c) * World.

Definition answer {X} (e : Eff X) : World -> X * World :=
  match e in Eff X return World -> X * World with
  | await c => remote c
  | _ => fun w => (tt, w)
  end.

Fixpoint run {A} (p : Prog A) (d : Dashboard.t) (w : World) : Run.t World :=
  match p with
  | Ret _ => Run.Make d w []
  | Do e k =>
      let (x, w') := answer e w in
      let r := run (k x) (setState e d) w' in
      Run.Make (Run.state r) (Run.world r) (observe e x ++ Run.trace r)
  end.

(** What a refresh by user [u] leaves behind when the state cells are [d]
    and the remote service is in state [w]. *)
Definition refreshOutcome (u : User.t) (d : Dashboard.t) (w : World) :
  Run.t World :=
  let (r, w') := remote (getTasks (User.id u)) w in
  match error r with
  | Some e =>
      Run.Make d w' [Called (getTasks (User.id u)) (Some e);
                     Toasted (errorToast "Error loading tasks" e)]
  | None =>
      Run.Make (setState (setTasks match data r with Some l => l | None => [] end) d)
               w' [Called (getTasks (User.id u)) None]
  end.

(** A handler fired in render [d]. *)
Definition fire (h : Dashboard.t -> Prog unit) (d : Dashboard.t) (w : World) :
  Run.t World :=
  run (h d) d w.

End Semantics.

(** The remote calls of a trace, the calls that failed, and the toasts. *)
Definition callsOf (tr : list Obs) : list Call :=
  flat_map (fun o => match o with Called c _ => [c] | _ => [] end) tr.

Definition failuresOf (tr : list Obs) : list RemoteError :=
  flat_map (fun o => match o with Called _ (Some e) => [e] | _ => [] end) tr.

Definition toastsOf (tr : list Obs) : list Toast.t :=
  flat_map (fun o => match o with Toasted t => [t] | _ => [] end) tr.

Definition errorToastsOf (tr : list Obs) : list Toast.t :=
  filter Toast.isError (toastsOf tr).

Definition logsOf (tr : list Obs) : list (string * RemoteError) :=
  flat_map (fun o => match o with Logged l e => [(l, e)] | _ => [] end) tr.

(** ** A stand-in remote service for concrete runs

    It answers every call from a fixed table and never changes: the rows
    and the profile it holds, and the error it reports while it is down. *)
Module Stub.
Record t := Make {
  rows : option (list Task.t);
  account : option Profile.t;
  outage : option RemoteError
}.

Definition remote (c : Call) (w : t) : Response (Data c) * t :=
  (match c return Response (Data c) with
   | getTasks _ => {| data := rows w; error := outage w |}
   | getProfile _ => {| data := account w; error := outage w |}
   | createTask _ | updateTask _ _ | deleteTask _ | updateProfile _ _ | signOut =>
       {| data := None; error := outage w |}
   end, w).
End Stub.

(** ** The filter of the specification *)

(** The letters of the basic Latin alphabet, each capital paired with its
    small letter. *)
Definition capitals : string := "ABCDEFGHIJKLMNOPQRSTUVWXYZ".

Definition smalls : string := "abcdefghijklmnopqrstuvwxyz".

Definition alphabet : list (ascii * ascii) :=
  combine (list_ascii_of_string capitals) (list_ascii_of_string smalls).

(** Two bytes are the same letter when they are equal or are the capital
    and the small form of one letter of the alphabet. *)
Inductive sameLetter : ascii -> ascii -> Prop :=
| same_unit a : sameLetter a a
| upper_lower u l : In (u, l) alphabet -> sameLetter u l
| lower_upper l u : In (u, l) alphabet -> sameLetter l u.

(** Equality of strings up to the case of their basic Latin letters.
    Strings it relates are equal up to case on any reading of the words;
    for text outside the basic Latin alphabet it asks for equality. *)
Inductive equalIgnoringCase : string -> string -> Prop :=
| eic_empty : equalIgnoringCase "" ""
| eic_cons a b s t :
    sameLetter a b -> equalIgnoringCase s t ->
    equalIgnoringCase (String a s) (String b t).

(** [t] is a case-insensitive substring of [s]. *)
Definition containsIgnoringCase (s t : string) : Prop :=
  exists before found after,
    s = before ++ found ++ after /\ equalIgnoringCase found t.

(** A string of basic Latin text: every byte is below 128. *)
Fixpoint isAscii (s : string) : Prop :=
  match s with
  | EmptyString => True
  | String a s' => (N_of_ascii a < 128)%N /\ isAscii s'
  end.

Definition statusPasses (statusFilter : string) (task : Task.t) : Prop :=
  statusFilter = "all" \/ Task.status task = statusFilter.

Definition priorityPasses (priorityFilter : string) (task : Task.t) : Prop :=
  priorityFilter = "all" \/ Task.priority task = priorityFilter.

(** The search predicate in the words of the specification: the term is
    empty, or the title or the description contains it as a
    case-insensitive substring. *)
Definition searchPassesAsClaimed (searchTerm : string) (task : Task.t) : Prop :=
  searchTerm = ""
  \/ containsIgnoringCase (Task.title task) searchTerm
  \/ containsIgnoringCase (Task.description task) searchTerm.

Definition passesFilterAsClaimed (searchTerm statusFilter priorityFilter : string)
  (task : Task.t) : Prop :=
  statusPasses statusFilter task
  /\ priorityPasses priorityFilter task
  /\ searchPassesAsClaimed searchTerm task.

(** The lower case of [s] holds the lower case of [t] as a substring. *)
Definition lowerContains (s t : string) : Prop :=
  exists before after, Js.toLowerCase s = before ++ Js.toLowerCase t ++ after.

(** The search predicate of the program: the lower case of the title or
    of the description holds the lower case of the term. *)
Definition searchPasses (searchTerm : string) (task : Task.t) : Prop :=
  lowerContains (Task.title task) searchTerm
  \/ lowerContains (Task.description task) searchTerm.

Definition passesFilter (searchTerm statusFilter priorityFilter : string)
  (task : Task.t) : Prop :=
  statusPasses statusFilter task
  /\ priorityPasses priorityFilter task
  /\ searchPasses searchTerm task.

(** [Selects P l l']: [l'] is [l] with exactly the elements that satisfy [P]
    kept, each as often as it occurs and in the order of [l]. *)
Inductive Selects {A} (P : A -> Prop) : list A -> list A -> Prop :=
| sel_nil : Selects P [] []
| sel_keep x l l' : P x -> Selects P l l' -> Selects P (x :: l) (x :: l')
| sel_drop x l l' : ~ P x -> Selects P l l' -> Selects P (x :: l) l'.

(** [Subsequence l' l]: [l'] is obtained from [l] by deleting elements. *)
Inductive Subsequence {A} : list A -> list A -> Prop :=
| sub_nil : Subsequence [] []
| sub_take x l' l : Subsequence l' l -> Subsequence (x :: l') (x :: l)
| sub_skip x l' l : Subsequence l' l -> Subsequence l' (x :: l).

(** The number of tasks with a given status. *)
Fixpoint countStatus (s : string) (l : list Task.t) : nat :=
  match l with
  | [] => 0
  | t :: l' => (if string_dec (Task.status t) s then 1 else 0) + countStatus s l'
  end.

Definition definedStatus (t : Task.t) : Prop :=
  Task.status t = "pending" \/ Task.status t = "in_progress"
  \/ Task.status t = "completed".

(** A string is blank when white space is all it holds. *)
Fixpoint allWhiteSpace (l : list N) : Prop :=
  match l with
  | [] => True
  | c :: l' => Js.isWhiteSpace c = true /\ allWhiteSpace l'
  end.

Definition blank (s : string) : Prop := allWhiteSpace (Js.decode s).

(** The [due_date] property of the object a create or update call sends:
    [Some None] is [null], [Some (Some s)] the string [s]; [None] when the
    call sends no task fields. *)
Definition sentDueDate (c : Call) : option (option string) :=
  match c with
  | createTask taskData => Some (TaskData.due_date taskData)
  | updateTask _ updates => Some (Some (TaskForm.due_date updates))
  | _ => None
  end.

(** The [title] property of the object a create or update call sends. *)
Definition sentTitle (c : Call) : option string :=
  match c with
  | createTask taskData => Some (TaskData.title taskData)
  | updateTask _ updates => Some (TaskForm.title updates)
  | _ => None
  end.

(** The four operations of the task list that reach the remote service. *)
Inductive TaskOp : Type :=
| Refresh
| Create
| Update
| Remove (taskId : string).

Definition handlerOf (op : TaskOp) : Dashboard.t -> Prog unit :=
  match op with
  | Refresh => loadTasks
  | Create => handleCreateTask
  | Update => handleUpdateTask
  | Remove taskId => handleDeleteTask taskId
  end.

(** The small form of a letter of the alphabet, and any other byte as
    it is; a string with every letter so folded. *)
Fixpoint smallIn (t : list (ascii * ascii)) (a : ascii) : ascii :=
  match t with
  | [] => a
  | (u, l) :: t' => if Ascii.eqb a u then l else smallIn t' a
  end.

Definition foldLetter (a : ascii) : ascii := smallIn alphabet a.

Fixpoint foldCase (s : string) : string :=
  match s with
  | EmptyString => EmptyString
  | String a s' => String (foldLetter a) (foldCase s')
  end.

(** The decision procedure for [sameLetter], and the bytes of the model,
    used to settle facts about single bytes by enumeration. *)
Definition sameLetterb (a b : ascii) : bool :=
  Ascii.eqb a b
  || existsb (fun p => Ascii.eqb (fst p) a && Ascii.eqb (snd p) b) alphabet
  || existsb (fun p => Ascii.eqb (fst p) b && Ascii.eqb (snd p) a) alphabet.

Definition codeUnits : list ascii := map ascii_of_nat (seq 0 256).

(** ** Sample renders *)

Definition sampleUser : User.t := {| User.id := "u1" |}.

(** The task of the specification's scenario; it has no due date. *)
Definition sampleTask : Task.t :=
  {| Task.id := "1"; Task.title := "Write spec"; Task.description := "";
     Task.status := "pending"; Task.priority := "high"; Task.due_date := None;
     Task.created_at := "2024-01-01T00:00:00Z";
     Task.updated_at := "2024-01-01T00:00:00Z"; Task.user_id := "u1" |}.

Definition doneTask : Task.t :=
  {| Task.id := "2"; Task.title := "Ship"; Task.description := "Release NOTES";
     Task.status := "completed"; Task.priority := "low";
     Task.due_date := Some "2024-02-01";
     Task.created_at := "2024-01-02T00:00:00Z";
     Task.updated_at := "2024-01-03T00:00:00Z"; Task.user_id := "u1" |}.

(** The remote service up, holding the two tasks, and down. *)
Definition serviceUp : Stub.t :=
  {| Stub.rows := Some [sampleTask; doneTask]; Stub.account := None;
     Stub.outage := None |}.

Definition serviceDown : Stub.t :=
  {| Stub.rows := None; Stub.account := None;
     Stub.outage := Some {| message := "connection refused" |} |}.

(** A signed-in render showing [sampleTask]. *)
Definition sampleDashboard : Dashboard.t :=
  setState (setTasks [sampleTask]) (Dashboard.initial (Some sampleUser)).

(** The same render after the edit dialog was opened on [sampleTask]. *)
Definition editingSample : Dashboard.t :=
  Run.state (fire Stub.remote (openTaskDialog (Some sampleTask))
                  sampleDashboard serviceUp).

(** ... and after the title input was cleared:
    [setTaskForm({ ...taskForm, title: e.target.value })] with an empty value. *)
Definition editingSampleBlankTitle : Dashboard.t :=
  setState
    (setTaskForm
       {| TaskForm.title := "";
          TaskForm.description := TaskForm.description (taskForm editingSample);
          TaskForm.status := TaskForm.status (taskForm editingSample);
          TaskForm.priority := TaskForm.priority (taskForm editingSample);
          TaskForm.due_date := TaskForm.due_date (taskForm editingSample) |})
    editingSample.

(** The create dialog filled in with a title and no due date. *)
Definition creatingShip : Dashboard.t :=
  setState
    (setTaskForm
       {| TaskForm.title := "Ship"; TaskForm.description := "";
          TaskForm.status := "pending"; TaskForm.priority := "medium";
          TaskForm.due_date := "" |})
    sampleDashboard.

(** ** The rest of the component *)

(** What the component renders where the task list goes.  The component
    returns the spinner alone while [loading] is set,
    [if (loading) { return <spinner/> }]; otherwise the list shows
    [filteredTasks.length === 0 ? (tasks.length === 0 ? ... : ...) : cards]. *)
Inductive TaskListView : Type :=
| ShowsSpinner
| ShowsMessage (text : string)
| ShowsCards (cards : list Task.t).

Definition taskListView (d : Dashboard.t) : TaskListView :=
  if loading d then ShowsSpinner
  else if (length (filteredTasks d) =? 0)%nat
       then ShowsMessage (if (length (tasks d) =? 0)%nat
                          then "No tasks yet. Create your first task!"
                          else "No tasks match your filters.")
       else ShowsCards (filteredTasks d).

(** An async function after it was called: it ran to its end, or it
    stopped at its first [await] with the rest of its body to come. *)
Inductive Pending (A : Type) : Type :=
| Finished (a : A)
| Awaiting (c : Call) (k : Response (Data c) -> Prog A).

Arguments Finished {A} a.
Arguments Awaiting {A} c k.

(** The synchronous part of a call of an async function: everything up
    to the first [await]. *)
Fixpoint start {A} (p : Prog A) : Prog (Pending A) :=
  match p with
  | Ret a => Ret (Finished a)
  | Do e k =>
      match e in Eff X
            return (X -> Prog A) -> (X -> Prog (Pending A)) -> Prog (Pending A)
      with
      | await c => fun k0 _ => Ret (Awaiting c k0)
      | toast t => fun _ k' => Do (toast t) k'
      | console_error l err => fun _ k' => Do (console_error l err) k'
      | setTasks l => fun _ k' => Do (setTasks l) k'
      | setProfile x => fun _ k' => Do (setProfile x) k'
      | setProfileForm f => fun _ k' => Do (setProfileForm f) k'
      | setTaskForm f => fun _ k' => Do (setTaskForm f) k'
      | setEditingTask t => fun _ k' => Do (setEditingTask t) k'
      | setIsTaskDialogOpen b => fun _ k' => Do (setIsTaskDialogOpen b) k'
      | setIsProfileDialogOpen b => fun _ k' => Do (setIsProfileDialogOpen b) k'
      | setLoading b => fun _ k' => Do (setLoading b) k'
      end k (fun x => start (k x))
  end.

(** [await Promise.all([p(), q()])] for two async functions that await
    once each.  [p] is called and runs to its [await], which issues its
    request; then [q] likewise; the two continuations run when the
    responses arrive, in the order [firstArrivesFirst] tells.  The remote
    service answers a request when it is issued. *)
Definition promiseAll2 (firstArrivesFirst : bool) (p q : Prog unit) : Prog unit :=
  sp <- start p ;;
  match sp with
  | Finished _ => q
  | Awaiting c1 k1 =>
      r1 <- perform (await c1) ;;
      sq <- start q ;;
      match sq with
      | Finished _ => k1 r1
      | Awaiting c2 k2 =>
          r2 <- perform (await c2) ;;
          if firstArrivesFirst then k1 r1 ;; k2 r2 else k2 r2 ;; k1 r1
      end
  end.

(** [const loadData = async () => {...}].  Neither load throws, so the
    [finally] block runs after both have finished. *)
Definition loadData (firstArrivesFirst : bool) (d : Dashboard.t) : Prog unit :=
  match user d with
  | None => done
  | Some _ =>
      perform (setLoading true) ;;
      promiseAll2 firstArrivesFirst (loadTasks d) (loadProfile d) ;;
      perform (setLoading false)
  end.

(** A program that awaits nothing. *)
Fixpoint awaitFree {A} (p : Prog A) : Prop :=
  match p with
  | Ret _ => True
  | Do e k =>
      match e with await _ => False | _ => True end /\ forall x, awaitFree (k x)
  end.

(** The handlers that run one step after the other. *)
Inductive Handler : Type :=
| OnLoadTasks
| OnLoadProfile
| OnCreateTask
| OnUpdateTask
| OnDeleteTask (taskId : string)
| OnUpdateProfile
| OnSignOut
| OnOpenTaskDialog (task : option Task.t)
| OnSubmitTaskDialog.

Definition bodyOf (h : Handler) : Dashboard.t -> Prog unit :=
  match h with
  | OnLoadTasks => loadTasks
  | OnLoadProfile => loadProfile
  | OnCreateTask => handleCreateTask
  | OnUpdateTask => handleUpdateTask
  | OnDeleteTask taskId => handleDeleteTask taskId
  | OnUpdateProfile => handleUpdateProfile
  | OnSignOut => handleSignOut
  | OnOpenTaskDialog task => openTaskDialog task
  | OnSubmitTaskDialog => submitTaskDialog
  end.

(** The handlers that write to the remote service. *)
Definition mutates (h : Handler) : bool :=
  match h with
  | OnCreateTask | OnUpdateTask | OnDeleteTask _ | OnUpdateProfile
  | OnSubmitTaskDialog => true
  | _ => false
  end.

(** No remote call follows a failed one in a trace. *)
Fixpoint quietAfterFailure (tr : list Obs) : bool :=
  match tr with
  | [] => true
  | Called _ (Some _) :: rest => (length (callsOf rest) =? 0)%nat
  | _ :: rest => quietAfterFailure rest
  end.

(** The state cells a program leaves alone, whatever the remote service
    answers: every setter it can reach keeps the projection [f]. *)
Fixpoint keeps {A T} (f : Dashboard.t -> T) (p : Prog A) : Prop :=
  match p with
  | Ret _ => True
  | Do e k => (forall d, f (setState e d) = f d) /\ forall x, keeps f (k x)
  end.

(** The cells of the task side and of the profile side of the component. *)
Definition taskSide (d : Dashboard.t) :
  list Task.t * option Task.t * TaskForm.t * bool :=
  (tasks d, editingTask d, taskForm d, isTaskDialogOpen d).

Definition profileSide (d : Dashboard.t) :
  option Profile.t * ProfileForm.t * bool :=
  (profile d, profileForm d, isProfileDialogOpen d).

(** The handlers of the profile dialog and of the sign-out button; the
    others belong to the task list. *)
Definition profileHandler (h : Handler) : bool :=
  match h with
  | OnLoadProfile | OnUpdateProfile | OnSignOut => true
  | _ => false
  end.

(** A render with the three filter controls set:
    [setSearchTerm(e.target.value)], [setStatusFilter], [setPriorityFilter]. *)
Definition withFilters (term status priority : string) (d : Dashboard.t) :
  Dashboard.t :=
  Dashboard.Make (user d) (tasks d) (profile d) (loading d) term status priority
    (isTaskDialogOpen d) (isProfileDialogOpen d) (editingTask d) (taskForm d)
    (profileForm d).

(** A task with a Greek title, "street" in capitals, and a render that
    shows it and searches for a capital sigma. *)
Definition streetTask : Task.t :=
  {| Task.id := "3"; Task.title := "ΟΔΟΣ"; Task.description := "";
     Task.status := "pending"; Task.priority := "low"; Task.due_date := None;
     Task.created_at := "2024-01-04T00:00:00Z";
     Task.updated_at := "2024-01-04T00:00:00Z"; Task.user_id := "u1" |}.

Definition searchingSigma : Dashboard.t :=
  withFilters "Σ" "all" "all"
    (setState (setLoading false)
       (setState (setTasks [streetTask]) (Dashboard.initial (Some sampleUser)))).

(** A profile and the remote service holding it. *)
Definition sampleProfile : Profile.t :=
  {| Profile.id := "u1"; Profile.first_name := "Ada";
     Profile.last_name := "Lovelace"; Profile.email := "ada@example.org" |}.

Definition serviceWithProfile : Stub.t :=
  {| Stub.rows := Some [sampleTask; doneTask]; Stub.account := Some sampleProfile;
     Stub.outage := None |}.

(** * Properties *)

(** ** Strings *)

Section Strings.

Lemma startsWith_iff s t :
  Js.startsWith s t = true <-> exists rest, s = t ++ rest.
Proof.
  revert s; induction t as [|b t IH]; intros s; simpl.
  - split; [exists s; reflexivity | reflexivity].
  - destruct s as [|a s].
    + split; [discriminate | intros [r Hr]; discriminate].
    + rewrite andb_true_iff, Ascii.eqb_eq, IH. split.
      * intros [-> [r ->]]. now exists r.
      * intros [r Hr]. injection Hr as -> ->. split; [reflexivity | now exists r].
Qed.

Lemma includes_iff s t :
  Js.includes s t = true <-> exists before after, s = before ++ t ++ after.
Proof.
  induction s as [|a s IH].
  - cbn [Js.includes]. rewrite startsWith_iff. split.
    + intros [r Hr]. exists "", r. exact Hr.
    + intros [[|b p] [r Hr]]; [now exists r | discriminate].
  - cbn [Js.includes]. rewrite orb_true_iff, startsWith_iff, IH. split.
    + intros [[r Hr] | [p [r Hr]]].
      * exists "", r. exact Hr.
      * exists (String a p), r. simpl. now rewrite Hr.
    + intros [[|b p] [r Hr]].
      * left. now exists r.
      * right. simpl in Hr. injection Hr as -> ->. now exists p, r.
Qed.

Lemma includes_empty s : Js.includes s "" = true.
Proof. apply includes_iff. exists "", s. reflexivity. Qed.

End Strings.

(** ** Bytes and code points *)

Section RoundTrip.

Lemma byte_embedding a : Js.byte (N_of_ascii a) = a.
Proof. apply ascii_N_embedding. Qed.

Lemma N_of_ascii_bound a : (N_of_ascii a < 256)%N.
Proof. destruct a as [[] [] [] [] [] [] [] []]; vm_compute; reflexivity. Qed.

Ltac bools :=
  repeat match goal with
         | H : (_ && _)%bool = true |- _ => apply andb_true_iff in H as [? ?]
         | H : negb _ = true |- _ => apply negb_true_iff in H
         | H : (_ && _)%bool = false |- _ => apply andb_false_iff in H
         | H : (_ <=? _)%N = true |- _ => apply N.leb_le in H
         | H : (_ <? _)%N = true |- _ => apply N.ltb_lt in H
         | H : (_ <=? _)%N = false |- _ => apply N.leb_gt in H
         | H : (_ <? _)%N = false |- _ => apply N.ltb_ge in H
         end.

(** Splitting a number into a leading part and six low bits. *)
Lemma six_bits hi lo :
  (lo < 64)%N -> ((hi * 64 + lo) / 64 = hi /\ (hi * 64 + lo) mod 64 = lo)%N.
Proof.
  intros H. split.
  - rewrite N.div_add_l by lia. rewrite N.div_small by lia. lia.
  - rewrite N.add_comm, N.Div0.mod_add. now apply N.mod_small.
Qed.

Lemma encodeOne_two b0 b1 :
  (194 <= b0 <= 223)%N -> (128 <= b1 <= 191)%N ->
  Js.encodeOne ((b0 - 192) * 64 + (b1 - 128))%N
  = String (Js.byte b0) (String (Js.byte b1) EmptyString).
Proof.
  intros H0 H1. unfold Js.encodeOne.
  destruct (@six_bits (b0 - 192) (b1 - 128))%N as [D M]; [lia|].
  set (c := ((b0 - 192) * 64 + (b1 - 128))%N) in *.
  assert (Hc : (128 <= c < 2048)%N) by (unfold c; lia).
  destruct (c <? 128)%N eqn:?; bools; [lia|].
  destruct (c <? 2048)%N eqn:?; bools; [|lia].
  rewrite D, M. repeat f_equal; lia.
Qed.

Lemma encodeOne_three b0 b1 b2 :
  (224 <= b0 <= 239)%N -> (128 <= b1 <= 191)%N -> (128 <= b2 <= 191)%N ->
  (2048 <= (b0 - 224) * 4096 + (b1 - 128) * 64 + (b2 - 128))%N ->
  Js.encodeOne ((b0 - 224) * 4096 + (b1 - 128) * 64 + (b2 - 128))%N
  = String (Js.byte b0) (String (Js.byte b1) (String (Js.byte b2) EmptyString)).
Proof.
  intros H0 H1 H2 Hlow. unfold Js.encodeOne.
  replace ((b0 - 224) * 4096 + (b1 - 128) * 64 + (b2 - 128))%N
    with (((b0 - 224) * 64 + (b1 - 128)) * 64 + (b2 - 128))%N in * by lia.
  destruct (@six_bits ((b0 - 224) * 64 + (b1 - 128)) (b2 - 128))%N as [D M]; [lia|].
  destruct (@six_bits (b0 - 224) (b1 - 128))%N as [D' M']; [lia|].
  set (c := (((b0 - 224) * 64 + (b1 - 128)) * 64 + (b2 - 128))%N) in *.
  assert (Hc : (2048 <= c < 65536)%N) by (unfold c in *; lia).
  destruct (c <? 128)%N eqn:?; bools; [lia|].
  destruct (c <? 2048)%N eqn:?; bools; [lia|].
  destruct (c <? 65536)%N eqn:?; bools; [|lia].
  replace (c / 4096)%N with (c / 64 / 64)%N
    by (rewrite N.Div0.div_div; reflexivity).
  rewrite M, D, D', M'. repeat f_equal; lia.
Qed.

Lemma encodeOne_four b0 b1 b2 b3 :
  (240 <= b0 <= 244)%N -> (128 <= b1 <= 191)%N -> (128 <= b2 <= 191)%N ->
  (128 <= b3 <= 191)%N ->
  (65536 <= (b0 - 240) * 262144 + (b1 - 128) * 4096 + (b2 - 128) * 64
            + (b3 - 128) < Js.strayBase)%N ->
  Js.encodeOne ((b0 - 240) * 262144 + (b1 - 128) * 4096 + (b2 - 128) * 64
                + (b3 - 128))%N
  = String (Js.byte b0)
      (String (Js.byte b1) (String (Js.byte b2) (String (Js.byte b3) EmptyString))).
Proof.
  intros H0 H1 H2 H3 Hc. unfold Js.encodeOne, Js.strayBase in *.
  replace ((b0 - 240) * 262144 + (b1 - 128) * 4096 + (b2 - 128) * 64
           + (b3 - 128))%N
    with ((((b0 - 240) * 64 + (b1 - 128)) * 64 + (b2 - 128)) * 64 + (b3 - 128))%N
    in * by lia.
  destruct (@six_bits (((b0 - 240) * 64 + (b1 - 128)) * 64 + (b2 - 128))
                      (b3 - 128))%N as [D M]; [lia|].
  destruct (@six_bits ((b0 - 240) * 64 + (b1 - 128)) (b2 - 128))%N as [D' M'];
    [lia|].
  destruct (@six_bits (b0 - 240) (b1 - 128))%N as [D'' M'']; [lia|].
  set (c := ((((b0 - 240) * 64 + (b1 - 128)) * 64 + (b2 - 128)) * 64
             + (b3 - 128))%N) in *.
  destruct (c <? 128)%N eqn:?; bools; [lia|].
  destruct (c <? 2048)%N eqn:?; bools; [lia|].
  destruct (c <? 65536)%N eqn:?; bools; [lia|].
  destruct (c <? 1114112)%N eqn:?; bools; [|lia].
  replace (c / 262144)%N with (c / 64 / 64 / 64)%N
    by (rewrite !N.Div0.div_div; reflexivity).
  replace (c / 4096)%N with (c / 64 / 64)%N
    by (rewrite N.Div0.div_div; reflexivity).
  rewrite M, D, D', M', D'', M''. repeat f_equal; lia.
Qed.

(** Decoding loses nothing: the bytes of the code points of a string are
    the string, well formed or not. *)
Lemma encode_decode_bounded n :
  forall s, String.length s <= n -> Js.encode (Js.decode s) = s.
Proof.
  induction n as [|n IH]; intros s L.
  - destruct s; [reflexivity | simpl in L; lia].
  - destruct s as [|a0 s1]; [reflexivity|].
    pose proof (N_of_ascii_bound a0) as B0.
    assert (Stray : Js.encode ((Js.strayBase + N_of_ascii a0)%N :: Js.decode s1)
                    = String a0 s1).
    { cbn [Js.encode]. rewrite IH by (simpl in L; lia).
      unfold Js.encodeOne, Js.strayBase.
      repeat match goal with
             | |- context [if ?b then _ else _] => destruct b eqn:?; bools; try lia
             end.
      replace (1114112 + N_of_ascii a0 - 1114112)%N with (N_of_ascii a0) by lia.
      now rewrite byte_embedding. }
    cbn [Js.decode].
    destruct (N_of_ascii a0 <? 128)%N eqn:E0.
    { cbn [Js.encode]. rewrite IH by (simpl in L; lia).
      unfold Js.encodeOne. rewrite E0. now rewrite byte_embedding. }
    destruct s1 as [|a1 s2]; [exact Stray|].
    match goal with |- context [if ?b then _ else _] => destruct b eqn:E1 end.
    { unfold Js.isContinuation in E1. bools.
      cbn [Js.encode]. rewrite IH by (simpl in L; lia).
      rewrite encodeOne_two by lia. now rewrite !byte_embedding. }
    clear E1.
    destruct s2 as [|a2 s3]; [exact Stray|].
    match goal with |- context [if ?b then _ else _] => destruct b eqn:E2 end.
    { unfold Js.isContinuation in E2. bools.
      cbn [Js.encode]. rewrite IH by (simpl in L; lia).
      rewrite encodeOne_three by lia. now rewrite !byte_embedding. }
    clear E2.
    destruct s3 as [|a3 s4]; [exact Stray|].
    match goal with |- context [if ?b then _ else _] => destruct b eqn:E3 end.
    { unfold Js.isContinuation in E3. bools.
      cbn [Js.encode]. rewrite IH by (simpl in L; lia).
      rewrite encodeOne_four by (unfold Js.strayBase in *; lia).
      now rewrite !byte_embedding. }
    exact Stray.
Qed.

Lemma encode_decode s : Js.encode (Js.decode s) = s.
Proof. eapply encode_decode_bounded. apply le_n. Qed.

(** [trim] returns a string with no white space at either end as it is. *)
Lemma trim_nothing_to_strip s :
  Js.dropTrailing (Js.dropLeading (Js.decode s)) = Js.decode s ->
  Js.trim s = s.
Proof. intros H. unfold Js.trim. rewrite H. apply encode_decode. Qed.

End RoundTrip.


(** ** Case-insensitive matching *)

Section IgnoringCase.

Lemma codeUnits_all c : In c codeUnits.
Proof.
  rewrite <- (ascii_nat_embedding c).
  apply in_map, in_seq.
  pose proof (nat_ascii_bounded c). lia.
Qed.

(** A fact checked on every byte holds of every byte. *)
Lemma every_byte (P : ascii -> bool) :
  forallb P codeUnits = true -> forall a, P a = true.
Proof.
  intros H a. rewrite forallb_forall in H. apply H, codeUnits_all.
Qed.

Lemma in_alphabet_iff u l :
  In (u, l) alphabet
  <-> existsb (fun p => Ascii.eqb (fst p) u && Ascii.eqb (snd p) l) alphabet = true.
Proof.
  rewrite existsb_exists. split.
  - intros H. exists (u, l). cbn [fst snd]. now rewrite !Ascii.eqb_refl.
  - intros ([u' l'] & H & E). cbn [fst snd] in E.
    apply andb_true_iff in E as [E1 E2].
    apply Ascii.eqb_eq in E1, E2. now subst.
Qed.

Lemma sameLetter_decide a b : sameLetter a b <-> sameLetterb a b = true.
Proof.
  unfold sameLetterb.
  rewrite !orb_true_iff, Ascii.eqb_eq, <- !in_alphabet_iff. split.
  - intros [c | u l H | l u H]; auto.
  - intros [[-> | H] | H].
    + constructor.
    + now apply upper_lower.
    + now apply lower_upper.
Qed.

Lemma sameLetterb_foldLetter a b :
  sameLetterb a b = Ascii.eqb (foldLetter a) (foldLetter b).
Proof.
  assert (H : forallb (fun x => forallb (fun y =>
                Bool.eqb (sameLetterb x y)
                         (Ascii.eqb (foldLetter x) (foldLetter y)))
                codeUnits) codeUnits = true) by (vm_compute; reflexivity).
  pose proof (every_byte _ H a) as Ha. cbv beta in Ha.
  pose proof (every_byte _ Ha b) as Hb. now apply eqb_prop.
Qed.

Lemma sameLetter_foldLetter a b :
  sameLetter a b <-> foldLetter a = foldLetter b.
Proof.
  now rewrite sameLetter_decide, sameLetterb_foldLetter, Ascii.eqb_eq.
Qed.

Lemma equalIgnoringCase_foldCase s t :
  equalIgnoringCase s t <-> foldCase s = foldCase t.
Proof.
  split.
  - induction 1 as [|a b s t Hab _ IH]; simpl; [reflexivity|].
    apply sameLetter_foldLetter in Hab. now rewrite Hab, IH.
  - revert t; induction s as [|a s IH]; intros [|b t] H; try discriminate.
    + constructor.
    + simpl in H. injection H as Hab Hst.
      constructor; [now apply sameLetter_foldLetter | now apply IH].
Qed.

Lemma equalIgnoringCase_refl s : equalIgnoringCase s s.
Proof. now apply equalIgnoringCase_foldCase. Qed.

Lemma foldCase_app s t : foldCase (s ++ t) = foldCase s ++ foldCase t.
Proof. induction s as [|a s IH]; simpl; [reflexivity | now rewrite IH]. Qed.

Lemma foldCase_split s x y :
  foldCase s = x ++ y ->
  exists s1 s2, s = s1 ++ s2 /\ foldCase s1 = x /\ foldCase s2 = y.
Proof.
  revert s; induction x as [|c x IH]; intros s H.
  - exists "", s. auto.
  - destruct s as [|a s]; [discriminate|].
    simpl in H. injection H as Hc Hs.
    destruct (IH _ Hs) as (s1 & s2 & -> & H1 & H2).
    exists (String a s1), s2. simpl. now rewrite Hc, H1.
Qed.

(** Case-insensitive containment is containment of the folded strings. *)
Lemma containsIgnoringCase_foldCase s t :
  containsIgnoringCase s t <-> Js.includes (foldCase s) (foldCase t) = true.
Proof.
  rewrite includes_iff. unfold containsIgnoringCase. split.
  - intros (s1 & s2 & s3 & -> & H).
    apply equalIgnoringCase_foldCase in H.
    exists (foldCase s1), (foldCase s3).
    now rewrite !foldCase_app, H.
  - intros (x & y & H).
    apply foldCase_split in H as (s1 & s23 & -> & _ & H).
    apply foldCase_split in H as (s2 & s3 & -> & H & _).
    exists s1, s2, s3. split; [reflexivity|].
    now apply equalIgnoringCase_foldCase.
Qed.

Lemma containsIgnoringCase_empty s : containsIgnoringCase s "".
Proof. exists "", "", s. split; [reflexivity | constructor]. Qed.

Lemma isAscii_app s t : isAscii (s ++ t) <-> isAscii s /\ isAscii t.
Proof. induction s as [|a s IH]; simpl; [tauto | rewrite IH; tauto]. Qed.

Lemma sameLetter_ascii a b :
  sameLetter a b -> (N_of_ascii a < 128)%N -> (N_of_ascii b < 128)%N.
Proof.
  assert (H : forallb (fun x => forallb (fun y =>
                implb (sameLetterb x y)
                      (Bool.eqb (N_of_ascii x <? 128)%N (N_of_ascii y <? 128)%N))
                codeUnits) codeUnits = true) by (vm_compute; reflexivity).
  pose proof (every_byte _ H a) as Ha. cbv beta in Ha.
  pose proof (every_byte _ Ha b) as Hb. cbv beta in Hb.
  intros S La. apply sameLetter_decide in S. rewrite S in Hb. cbn in Hb.
  apply eqb_prop in Hb. apply N.ltb_lt in La. rewrite La in Hb.
  apply N.ltb_lt. symmetry. exact Hb.
Qed.

Lemma equalIgnoringCase_ascii s t :
  equalIgnoringCase s t -> isAscii s -> isAscii t.
Proof.
  induction 1 as [|a b s t Hab _ IH]; simpl; [tauto|].
  intros [Ha Hs]. split; [eapply sameLetter_ascii; eauto | auto].
Qed.

(** On basic Latin text the lower case of the program is the folding of
    the 26 letters: the tables send each capital to its small letter and
    nothing else below 128 moves, the context rule for the capital sigma
    has nothing to apply to, and every code point is one byte. *)
Lemma lowerFrom_ascii s :
  isAscii s ->
  forall casedBefore,
    Js.encode (Js.lowerFrom casedBefore (Js.decode s)) = foldCase s.
Proof.
  assert (H : forallb (fun a =>
                implb (N_of_ascii a <? 128)%N
                  ((negb (N_of_ascii a =? 931)%N)
                   && String.eqb (Js.encode (Js.lowerOf (N_of_ascii a)))
                                 (String (foldLetter a) EmptyString)))
                codeUnits = true) by (vm_compute; reflexivity).
  assert (encode_app : forall l1 l2,
            Js.encode (l1 ++ l2) = Js.encode l1 ++ Js.encode l2).
  { induction l1 as [|c l1 IH]; intros l2; cbn [Js.encode app];
      [reflexivity|]. rewrite IH.
    generalize (Js.encodeOne c), (Js.encode l1), (Js.encode l2).
    induction s0 as [|x s0 IHs]; intros; simpl; [reflexivity | now rewrite IHs]. }
  induction s as [|a s IH]; intros Hs b; [reflexivity|].
  destruct Hs as [Ha Hs].
  pose proof (every_byte _ H a) as Fa. cbv beta in Fa.
  apply N.ltb_lt in Ha. rewrite Ha in Fa. cbn [implb] in Fa.
  apply andb_true_iff in Fa as [F1 F2].
  apply negb_true_iff in F1. apply String.eqb_eq in F2.
  assert (D : Js.decode (String a s) = N_of_ascii a :: Js.decode s).
  { cbn [Js.decode]. now rewrite Ha. }
  rewrite D. clear D.
  cbn [Js.lowerFrom]. rewrite F1, encode_app, F2, IH by exact Hs.
  reflexivity.
Qed.

Lemma toLowerCase_ascii s : isAscii s -> Js.toLowerCase s = foldCase s.
Proof. intros H. now apply lowerFrom_ascii. Qed.

Lemma toLowerCase_empty : Js.toLowerCase "" = "".
Proof. reflexivity. Qed.

(** On basic Latin text the test of the source,
    [s.toLowerCase().includes(t.toLowerCase())], decides case-insensitive
    containment. *)
Lemma includes_toLowerCase_ascii s t :
  isAscii s -> isAscii t ->
  (Js.includes (Js.toLowerCase s) (Js.toLowerCase t) = true
   <-> containsIgnoringCase s t).
Proof.
  intros Hs Ht. rewrite !toLowerCase_ascii by assumption.
  symmetry. apply containsIgnoringCase_foldCase.
Qed.

Lemma lowerContains_includes s t :
  lowerContains s t
  <-> Js.includes (Js.toLowerCase s) (Js.toLowerCase t) = true.
Proof. unfold lowerContains. now rewrite includes_iff. Qed.

End IgnoringCase.

(** ** Selecting from a list *)

Section Selecting.

Context {A : Type} (f : A -> bool) (P : A -> Prop).
Hypothesis f_decides : forall x, f x = true <-> P x.

Lemma filter_Selects l : Selects P l (filter f l).
Proof.
  induction l as [|x l IH]; simpl.
  - constructor.
  - destruct (f x) eqn:E.
    + apply sel_keep; [now apply f_decides | exact IH].
    + apply sel_drop; [| exact IH].
      intros HP. apply f_decides in HP. congruence.
Qed.

Lemma Selects_In l l' :
  Selects P l l' -> forall x, In x l' <-> In x l /\ P x.
Proof.
  induction 1 as [|y l l' Hy _ IH|y l l' Hy _ IH]; intros x; simpl.
  - tauto.
  - rewrite IH. split.
    + intros [<- | [? ?]]; auto.
    + intros [[<- | ?] ?]; auto.
  - rewrite IH. split.
    + intros [? ?]; auto.
    + intros [[<- | ?] ?]; [contradiction | auto].
Qed.

Lemma Selects_Subsequence l l' : Selects P l l' -> Subsequence l' l.
Proof. induction 1; constructor; assumption. Qed.

Lemma Selects_unique l l1 l2 : Selects P l l1 -> Selects P l l2 -> l1 = l2.
Proof.
  intros H1; revert l2.
  induction H1 as [|x l l1 Hx _ IH|x l l1 Hx _ IH]; intros l2 H2;
    inversion H2; subst; try contradiction; auto.
  f_equal. now apply IH.
Qed.

End Selecting.

(** ** [filteredTasks] and [taskStats] *)

Section Derived.

Lemma search_test_iff term task :
  Js.includes (Js.toLowerCase (Task.title task)) (Js.toLowerCase term)
  || Js.includes (Js.toLowerCase (Task.description task)) (Js.toLowerCase term)
  = true
  <-> searchPasses term task.
Proof.
  unfold searchPasses. now rewrite orb_true_iff, !lowerContains_includes.
Qed.

Lemma searchPasses_empty task : searchPasses "" task.
Proof.
  left. apply lowerContains_includes.
  rewrite toLowerCase_empty. apply includes_empty.
Qed.

(** On basic Latin text the search test of the program is the one the
    specification words. *)
Lemma searchPasses_ascii term task :
  isAscii term -> isAscii (Task.title task) -> isAscii (Task.description task) ->
  (searchPasses term task <-> searchPassesAsClaimed term task).
Proof.
  intros Ht Hti Hde. unfold searchPasses, searchPassesAsClaimed.
  rewrite !lowerContains_includes, !includes_toLowerCase_ascii by assumption.
  split; [tauto|].
  intros [-> | H]; [left; apply containsIgnoringCase_empty | exact H].
Qed.

Lemma select_test_iff choice value :
  (choice =? "all") || (value =? choice) = true
  <-> choice = "all" \/ value = choice.
Proof. now rewrite orb_true_iff, !String.eqb_eq. Qed.

Lemma filteredTasks_Selects d :
  Selects (passesFilter (searchTerm d) (statusFilter d) (priorityFilter d))
          (tasks d) (filteredTasks d).
Proof.
  apply filter_Selects. intros task. cbv zeta.
  rewrite !andb_true_iff, search_test_iff, !select_test_iff.
  unfold passesFilter, statusPasses, priorityPasses. tauto.
Qed.

Lemma length_filter_status s l :
  length (filter (fun t => Task.status t =? s) l) = countStatus s l.
Proof.
  induction l as [|t l IH]; simpl; [reflexivity|].
  destruct (string_dec (Task.status t) s) as [E | E].
  - apply String.eqb_eq in E. rewrite E. simpl. now rewrite IH.
  - apply String.eqb_neq in E. now rewrite E.
Qed.

Lemma countStatus_partition l :
  Forall definedStatus l ->
  length l
  = countStatus "completed" l + countStatus "pending" l
    + countStatus "in_progress" l.
Proof.
  induction 1 as [|t l Ht _ IH]; simpl; [reflexivity|].
  rewrite IH.
  destruct Ht as [E | [E | E]]; rewrite E; simpl; lia.
Qed.

End Derived.

(** C1, amended.  For every task sequence and every filter tuple,
    [filteredTasks] holds exactly the tasks that pass the status test, the
    priority test and the search test, each as often as in the input and
    in the input's order: a task is in the result precisely when it is in
    the input and passes all three, and the result is a subsequence of the
    input.  A task passes the search test when the lower case of its title
    or of its description holds the lower case of the search term as a
    substring.  Every task passes it for the empty term; and where the
    term, the title and the description are basic Latin text, it is the
    test the specification words: the term is empty or is a
    case-insensitive substring of the title or of the description. *)
Theorem filteredTasks_exact (d : Dashboard.t) :
  let passes := passesFilter (searchTerm d) (statusFilter d) (priorityFilter d) in
  Selects passes (tasks d) (filteredTasks d)
  /\ (forall task, In task (filteredTasks d) <-> In task (tasks d) /\ passes task)
  /\ Subsequence (filteredTasks d) (tasks d)
  /\ (forall task, searchPasses "" task)
  /\ (forall task,
        isAscii (searchTerm d) ->
        isAscii (Task.title task) ->
        isAscii (Task.description task) ->
        (passes task
         <-> passesFilterAsClaimed (searchTerm d) (statusFilter d)
                                   (priorityFilter d) task)).
Proof.
  intros passes. pose proof (filteredTasks_Selects d) as H. fold passes in H.
  split; [exact H | split; [| split; [| split]]].
  - now apply Selects_In.
  - now apply Selects_Subsequence with (P := passes).
  - apply searchPasses_empty.
  - intros task Ht Hti Hde. unfold passes, passesFilter, passesFilterAsClaimed.
    now rewrite (@searchPasses_ascii _ _ Ht Hti Hde).
Qed.

(** C1 as the specification words it fails outside basic Latin text.  The
    title of [streetTask] ends in a capital sigma and the search term is a
    capital sigma, so the title holds the term as it is; but the lower
    case of the title ends in the final small sigma and the lower case of
    the term is the small sigma, and the filter drops the task. *)
Lemma filter_misses_final_sigma :
  Js.toLowerCase "ΟΔΟΣ" = "οδος"
  /\ Js.toLowerCase "Σ" = "σ"
  /\ filteredTasks searchingSigma = []
  /\ In streetTask (tasks searchingSigma)
  /\ passesFilterAsClaimed (searchTerm searchingSigma)
                           (statusFilter searchingSigma)
                           (priorityFilter searchingSigma) streetTask
  /\ ~ (forall task,
          In task (filteredTasks searchingSigma)
          <-> In task (tasks searchingSigma)
              /\ passesFilterAsClaimed (searchTerm searchingSigma)
                                       (statusFilter searchingSigma)
                                       (priorityFilter searchingSigma) task).
Proof.
  assert (E : filteredTasks searchingSigma = []) by (vm_compute; reflexivity).
  assert (I : In streetTask (tasks searchingSigma)) by (left; reflexivity).
  assert (P : passesFilterAsClaimed (searchTerm searchingSigma)
                (statusFilter searchingSigma) (priorityFilter searchingSigma)
                streetTask).
  { split; [now left | split; [now left |]].
    right. left. exists "ΟΔΟ", "Σ", "". split; [reflexivity|].
    apply equalIgnoringCase_refl. }
  split; [vm_compute; reflexivity | split; [vm_compute; reflexivity |]].
  split; [exact E | split; [exact I | split; [exact P |]]].
  intros H. rewrite E in H. exact (proj2 (H streetTask) (conj I P)).
Qed.

(** C9. With an empty search term and both select filters on "all",
    [filteredTasks] is the whole task sequence, unchanged. *)
Theorem filteredTasks_all_pass (d : Dashboard.t) :
  searchTerm d = "" -> statusFilter d = "all" -> priorityFilter d = "all" ->
  filteredTasks d = tasks d.
Proof.
  intros Hs Hst Hp. unfold filteredTasks. rewrite Hs, Hst, Hp.
  induction (tasks d) as [|t l IH]; cbn [filter]; [reflexivity|].
  rewrite IH, toLowerCase_empty. now rewrite includes_empty.
Qed.

(** C2. When every task's status is pending, in_progress or completed,
    [taskStats] has total = completed + pending + inProgress, where total
    is the length of the sequence and the other three are the numbers of
    tasks with the corresponding status. *)
Theorem taskStats_total (d : Dashboard.t) :
  Forall definedStatus (tasks d) ->
  TaskStats.total (taskStats d)
  = TaskStats.completed (taskStats d) + TaskStats.pending (taskStats d)
    + TaskStats.inProgress (taskStats d)
  /\ TaskStats.total (taskStats d) = length (tasks d)
  /\ TaskStats.completed (taskStats d) = countStatus "completed" (tasks d)
  /\ TaskStats.pending (taskStats d) = countStatus "pending" (tasks d)
  /\ TaskStats.inProgress (taskStats d) = countStatus "in_progress" (tasks d).
Proof.
  intros H. unfold taskStats. cbn [TaskStats.total TaskStats.completed
    TaskStats.pending TaskStats.inProgress].
  rewrite !length_filter_status.
  repeat split. now apply countStatus_partition.
Qed.

(** C10. [taskStats] is a function of the task sequence alone: two
    renders with the same tasks have the same statistics, whatever their
    search term, status filter and priority filter. *)
Theorem taskStats_ignores_filters (d1 d2 : Dashboard.t) :
  tasks d1 = tasks d2 -> taskStats d1 = taskStats d2.
Proof. intros H. unfold taskStats. now rewrite H. Qed.

(** The scenario of the specification: one pending task of high priority. *)
Example filter_scenario_pending :
  filteredTasks
    (Dashboard.Make None [sampleTask] None false "" "pending" "all"
                    false false None TaskForm.empty (ProfileForm.Make "" "" ""))
  = [sampleTask].
Proof. reflexivity. Qed.

Example filter_scenario_completed :
  filteredTasks
    (Dashboard.Make None [sampleTask] None false "" "completed" "all"
                    false false None TaskForm.empty (ProfileForm.Make "" "" ""))
  = [].
Proof. reflexivity. Qed.

Example filter_scenario_search :
  filteredTasks
    (Dashboard.Make None [sampleTask; doneTask] None false "notes" "all" "all"
                    false false None TaskForm.empty (ProfileForm.Make "" "" ""))
  = [doneTask].
Proof. reflexivity. Qed.

(** ** Blank titles *)

Section Blank.

Lemma encode_empty_iff l : Js.encode l = "" <-> l = [].
Proof.
  destruct l as [|c l]; [tauto|]. split; [|discriminate].
  cbn [Js.encode]. unfold Js.encodeOne.
  repeat match goal with
         | |- context [if ?b then _ else _] => destruct b
         end; discriminate.
Qed.

Lemma dropLeading_allWhiteSpace l :
  allWhiteSpace (Js.dropLeading l) <-> allWhiteSpace l.
Proof.
  induction l as [|c l IH]; cbn [Js.dropLeading allWhiteSpace]; [tauto|].
  destruct (Js.isWhiteSpace c) eqn:E; cbn [allWhiteSpace].
  - rewrite IH. tauto.
  - rewrite E. tauto.
Qed.

Lemma dropTrailing_nil_iff l : Js.dropTrailing l = [] <-> allWhiteSpace l.
Proof.
  induction l as [|c l IH]; cbn [Js.dropTrailing allWhiteSpace]; [tauto|].
  destruct (Js.dropTrailing l) as [|a r].
  - destruct (Js.isWhiteSpace c).
    + intuition.
    + split; [discriminate | intros [? _]; discriminate].
  - split; [discriminate|].
    intros [_ H]. apply IH in H. discriminate.
Qed.

Lemma trim_empty_iff s : Js.trim s = "" <-> blank s.
Proof.
  unfold Js.trim, blank.
  now rewrite encode_empty_iff, dropTrailing_nil_iff, dropLeading_allWhiteSpace.
Qed.

(** The guard [!taskForm.title.trim()] holds exactly for blank titles. *)
Lemma blank_guard s : negb (Js.truthy (Js.trim s)) = true <-> blank s.
Proof.
  unfold Js.truthy. rewrite negb_involutive, String.eqb_eq. apply trim_empty_iff.
Qed.

Lemma blank_dec s : {blank s} + {~ blank s}.
Proof.
  destruct (negb (Js.truthy (Js.trim s))) eqn:E.
  - left. now apply blank_guard.
  - right. intros H. apply blank_guard in H. congruence.
Qed.

End Blank.

(** ** The handlers against an arbitrary remote service *)

Section Handlers.

Variable World : Type.
Variable remote : forall c : Call, World -> Response (Data c) * World.

Ltac answered :=
  match goal with
  | |- context [remote ?c ?w] =>
      let dat := fresh "dat" in
      let e := fresh "e" in
      let w' := fresh "w'" in
      destruct (remote c w) as [[dat [e|]] w'] eqn:?
  end.

(** [loadTasks] of render [d], run when the state cells are [d']. *)
Lemma run_loadTasks d d' w :
  run remote (loadTasks d) d' w =
  match user d with
  | None => Run.Make d' w []
  | Some u => refreshOutcome remote u d' w
  end.
Proof.
  unfold loadTasks, refreshOutcome. destruct (user d) as [u|]; [|reflexivity].
  simpl. now answered.
Qed.

Lemma refresh_failure d d' w e :
  In e (failuresOf (Run.trace (run remote (loadTasks d) d' w))) ->
  tasks (Run.state (run remote (loadTasks d) d' w)) = tasks d'
  /\ errorToastsOf (Run.trace (run remote (loadTasks d) d' w))
     = [errorToast "Error loading tasks" e].
Proof.
  rewrite run_loadTasks. destruct (user d) as [u|]; [|intros []].
  unfold refreshOutcome. answered; cbn.
  - intros [<- | []]. split; reflexivity.
  - intros [].
Qed.

(** A refresh asks for the tasks of the signed-in user and nothing else. *)
Lemma refresh_calls d d' w c :
  In c (callsOf (Run.trace (run remote (loadTasks d) d' w))) ->
  exists u, user d = Some u /\ c = getTasks (User.id u).
Proof.
  rewrite run_loadTasks. destruct (user d) as [u|]; [|intros []].
  unfold refreshOutcome. answered; cbn; intros [<- | []]; eauto.
Qed.

(** C3. Whenever a remote call issued by refresh, create, update or
    remove fails, the local task sequence after the handler equals the one
    before it, and the handler emits exactly one error notification, whose
    description is the message of the remote error. *)
Theorem failed_call_isolated (op : TaskOp) (d : Dashboard.t) (w : World)
  (e : RemoteError) :
  In e (failuresOf (Run.trace (fire remote (handlerOf op) d w))) ->
  tasks (Run.state (fire remote (handlerOf op) d w)) = tasks d
  /\ exists heading,
       errorToastsOf (Run.trace (fire remote (handlerOf op) d w))
       = [{| Toast.title := heading;
             Toast.description := message e;
             Toast.variant := Some "destructive" |}].
Proof.
  unfold fire. destruct op as [| | |taskId]; cbn [handlerOf].
  - intros H. apply refresh_failure in H as [H1 H2].
    split; [exact H1 | eexists; exact H2].
  - unfold handleCreateTask. destruct (user d) as [u|]; [|intros []].
    destruct (Js.truthy _); [|intros []].
    cbn -[loadTasks]. answered; cbn -[loadTasks].
    + intros [<- | []]. split; [reflexivity | eexists; reflexivity].
    + intros H. apply refresh_failure in H as [H1 H2]. cbn in H1.
      split; [exact H1 | eexists; exact H2].
  - unfold handleUpdateTask. destruct (editingTask d) as [task|]; [|intros []].
    cbn -[loadTasks]. answered; cbn -[loadTasks].
    + intros [<- | []]. split; [reflexivity | eexists; reflexivity].
    + intros H. apply refresh_failure in H as [H1 H2]. cbn in H1.
      split; [exact H1 | eexists; exact H2].
  - unfold handleDeleteTask.
    cbn -[loadTasks]. answered; cbn -[loadTasks].
    + intros [<- | []]. split; [reflexivity | eexists; reflexivity].
    + intros H. apply refresh_failure in H as [H1 H2]. cbn in H1.
      split; [exact H1 | eexists; exact H2].
Qed.

(** C6. A failing profile load is logged to the console and otherwise
    ignored: no toast is shown and no state cell changes, so a profile that
    was never loaded keeps its placeholder label.  A failing task load
    shows one error toast with the message of the remote error. *)
Theorem load_failures (d : Dashboard.t) (w : World) (u : User.t) :
  user d = Some u ->
  (forall e,
     error (fst (remote (getProfile (User.id u)) w)) = Some e ->
     logsOf (Run.trace (fire remote loadProfile d w))
     = [("Error loading profile:", e)]
     /\ toastsOf (Run.trace (fire remote loadProfile d w)) = []
     /\ Run.state (fire remote loadProfile d w) = d
     /\ (profile d = None ->
         profileLabel (Run.state (fire remote loadProfile d w)) = "Profile"))
  /\ (forall e,
        error (fst (remote (getTasks (User.id u)) w)) = Some e ->
        toastsOf (Run.trace (fire remote loadTasks d w))
        = [{| Toast.title := "Error loading tasks";
              Toast.description := message e;
              Toast.variant := Some "destructive" |}]).
Proof.
  intros Hu. unfold fire. split; intros e.
  - unfold loadProfile. rewrite Hu. cbn.
    answered; cbn; intros [= <-] || discriminate.
    repeat split. unfold profileLabel. now intros ->.
  - rewrite run_loadTasks, Hu. unfold refreshOutcome.
    answered; cbn; intros [= <-] || discriminate. reflexivity.
Qed.



(** C8. When the list-tasks call succeeds with an absent data payload,
    refresh sets the local task sequence to the empty sequence. *)
Theorem refresh_null_data (d : Dashboard.t) (w : World) (u : User.t) :
  user d = Some u ->
  fst (remote (getTasks (User.id u)) w) = {| data := None; error := None |} ->
  tasks (Run.state (fire remote loadTasks d w)) = [].
Proof.
  intros Hu. unfold fire. rewrite run_loadTasks, Hu. unfold refreshOutcome.
  destruct (remote (getTasks (User.id u)) w) as [r w']. cbn [fst].
  now intros ->.
Qed.

(** The create handler does guard the title: with a blank title it
    returns at once, leaving no trace and changing nothing. *)
Lemma handleCreateTask_blank_title d w :
  blank (TaskForm.title (taskForm d)) ->
  fire remote handleCreateTask d w = Run.Make d w [].
Proof.
  intros H. apply blank_guard in H.
  unfold fire, handleCreateTask. destruct (user d); [|reflexivity].
  now rewrite H.
Qed.

(** Every task the create handler sends has a title that is not blank and
    a due date that is [null] or a non-empty string. *)
Lemma handleCreateTask_payload d w taskData :
  In (createTask taskData) (callsOf (Run.trace (fire remote handleCreateTask d w))) ->
  ~ blank (TaskData.title taskData)
  /\ TaskData.due_date taskData <> Some ""
  /\ TaskData.due_date taskData = Js.or_null (TaskForm.due_date (taskForm d))
  /\ TaskData.title taskData = TaskForm.title (taskForm d)
  /\ TaskData.description taskData = TaskForm.description (taskForm d)
  /\ TaskData.status taskData = TaskForm.status (taskForm d)
  /\ TaskData.priority taskData = TaskForm.priority (taskForm d).
Proof.
  unfold fire, handleCreateTask. destruct (user d) as [u|]; [|intros []].
  destruct (negb (Js.truthy (Js.trim (TaskForm.title (taskForm d))))) eqn:G;
    [intros []|].
  assert (Hgoal : forall td,
            td = {| TaskData.title := TaskForm.title (taskForm d);
                    TaskData.description := TaskForm.description (taskForm d);
                    TaskData.status := TaskForm.status (taskForm d);
                    TaskData.priority := TaskForm.priority (taskForm d);
                    TaskData.due_date := Js.or_null (TaskForm.due_date (taskForm d));
                    TaskData.user_id := User.id u |} ->
            ~ blank (TaskData.title td)
            /\ TaskData.due_date td <> Some ""
            /\ TaskData.due_date td = Js.or_null (TaskForm.due_date (taskForm d))
            /\ TaskData.title td = TaskForm.title (taskForm d)
            /\ TaskData.description td = TaskForm.description (taskForm d)
            /\ TaskData.status td = TaskForm.status (taskForm d)
            /\ TaskData.priority td = TaskForm.priority (taskForm d)).
  { intros td ->. cbn. repeat split.
    - intros B. apply blank_guard in B. congruence.
    - unfold Js.or_null, Js.truthy.
      destruct (TaskForm.due_date (taskForm d)) as [|c s]; cbn; congruence. }
  cbn -[loadTasks]. answered; cbn -[loadTasks].
  - intros [[= <-] | []]. now apply Hgoal.
  - intros [[= <-] | H]; [now apply Hgoal|].
    apply refresh_calls in H as (u' & _ & [=]).
Qed.

(** The update handler sends the edit buffer as it is, whatever its title
    and due date. *)
Lemma handleUpdateTask_payload d w task :
  editingTask d = Some task ->
  exists rest,
    callsOf (Run.trace (fire remote handleUpdateTask d w))
    = updateTask (Task.id task) (taskForm d) :: rest.
Proof.
  intros H. unfold fire, handleUpdateTask. rewrite H.
  cbn -[loadTasks]. answered; cbn -[loadTasks]; eauto.
Qed.

End Handlers.

(** ** Concrete runs against the stand-in service *)

(** C4. The title guard is missing from the update handler.  With the edit
    dialog open on a task and the title input cleared, pressing the submit
    button sends the update with its empty title to the remote service
    (and then refreshes), where the create handler would have returned
    without a call. *)
Theorem update_submits_blank_title :
  editingTask editingSampleBlankTitle = Some sampleTask
  /\ blank (TaskForm.title (taskForm editingSampleBlankTitle))
  /\ callsOf (Run.trace (fire Stub.remote submitTaskDialog
                              editingSampleBlankTitle serviceUp))
     = [updateTask "1" (TaskForm.Make "" "" "pending" "high" "");
        getTasks "u1"]
  /\ toastsOf (Run.trace (fire Stub.remote submitTaskDialog
                               editingSampleBlankTitle serviceUp))
     = [successToast "Task updated" "Your task has been updated successfully."]
  /\ fire Stub.remote handleCreateTask editingSampleBlankTitle serviceUp
     = Run.Make editingSampleBlankTitle serviceUp [].
Proof. repeat split. Qed.

(** C5. The update handler does not replace an empty due date.  With the
    edit dialog opened on a task that has no due date, the buffer holds the
    empty string, and submitting sends that empty string as the due date;
    the create handler sends [null] for the same buffer value. *)
Theorem update_sends_empty_due_date :
  Task.due_date sampleTask = None
  /\ TaskForm.due_date (taskForm editingSample) = ""
  /\ map sentDueDate
         (callsOf (Run.trace (fire Stub.remote submitTaskDialog
                                   editingSample serviceUp)))
     = [Some (Some ""); None]
  /\ TaskForm.due_date (taskForm creatingShip) = ""
  /\ map sentDueDate
         (callsOf (Run.trace (fire Stub.remote submitTaskDialog
                                   creatingShip serviceUp)))
     = [Some None; None].
Proof. repeat split. Qed.

Lemma filteredTasks_exact_witness :
  passesFilter "SPEC" "all" "all" sampleTask
  <-> passesFilterAsClaimed "SPEC" "all" "all" sampleTask.
Proof.
  apply (proj2 (proj2 (proj2 (proj2
           (filteredTasks_exact (withFilters "SPEC" "all" "all" sampleDashboard)))))
           sampleTask); cbv; repeat split.
Defined.

Lemma filteredTasks_all_pass_witness :
  (searchTerm sampleDashboard = "" /\ statusFilter sampleDashboard = "all"
   /\ priorityFilter sampleDashboard = "all")
  /\ filteredTasks sampleDashboard = tasks sampleDashboard.
Proof.
  split; [repeat split |].
  apply (filteredTasks_all_pass sampleDashboard); reflexivity.
Defined.

Lemma taskStats_total_witness :
  Forall definedStatus [sampleTask; doneTask]
  /\ TaskStats.total
       (taskStats (setState (setTasks [sampleTask; doneTask]) sampleDashboard))
     = 1 + 1 + 0.
Proof.
  assert (H : Forall definedStatus [sampleTask; doneTask])
    by (repeat constructor; vm_compute; auto).
  split; [exact H |].
  exact (proj1 (taskStats_total
                  (setState (setTasks [sampleTask; doneTask]) sampleDashboard) H)).
Defined.

Lemma taskStats_ignores_filters_witness :
  taskStats sampleDashboard
  = taskStats (Dashboard.Make None [sampleTask] None false "spec" "completed"
                              "low" false false None TaskForm.empty
                              (ProfileForm.Make "" "" "")).
Proof. apply taskStats_ignores_filters. reflexivity. Defined.

Lemma failed_call_isolated_witness :
  tasks (Run.state (fire Stub.remote (handlerOf Create) creatingShip serviceDown))
  = [sampleTask]
  /\ exists heading,
       errorToastsOf (Run.trace (fire Stub.remote (handlerOf Create)
                                      creatingShip serviceDown))
       = [{| Toast.title := heading;
             Toast.description := "connection refused";
             Toast.variant := Some "destructive" |}].
Proof.
  apply (failed_call_isolated Stub.remote Create creatingShip serviceDown
           {| message := "connection refused" |}).
  vm_compute. auto.
Defined.

Lemma load_failures_witness :
  logsOf (Run.trace (fire Stub.remote loadProfile sampleDashboard serviceDown))
  = [("Error loading profile:", {| message := "connection refused" |})]
  /\ toastsOf (Run.trace (fire Stub.remote loadTasks sampleDashboard serviceDown))
     = [errorToast "Error loading tasks" {| message := "connection refused" |}].
Proof.
  destruct (load_failures Stub.remote sampleDashboard serviceDown
              (u := sampleUser) eq_refl) as [P T].
  split.
  - apply (P {| message := "connection refused" |}). reflexivity.
  - apply (T {| message := "connection refused" |}). reflexivity.
Defined.


Lemma refresh_null_data_witness :
  tasks (Run.state (fire Stub.remote loadTasks sampleDashboard
                         (Stub.Make None None None)))
  = [].
Proof.
  apply (refresh_null_data Stub.remote sampleDashboard (Stub.Make None None None)
           (u := sampleUser)); reflexivity.
Defined.

(** * Further properties of the component *)

(** ** The task list and its filters *)

Section Narrowing.

Lemma string_app_assoc (a b c : string) : (a ++ b) ++ c = a ++ b ++ c.
Proof. induction a as [|x a IH]; simpl; [reflexivity | now rewrite IH]. Qed.

Lemma includes_trans a b c :
  Js.includes a b = true -> Js.includes b c = true -> Js.includes a c = true.
Proof.
  rewrite !includes_iff. intros (p & q & ->) (p' & q' & ->).
  exists (p ++ p'), (q' ++ q). now rewrite !string_app_assoc.
Qed.

Lemma filter_narrower {A} (f g : A -> bool) l :
  (forall x, f x = true -> g x = true) ->
  Subsequence (filter f l) (filter g l).
Proof.
  intros Hfg. induction l as [|x l IH]; simpl; [constructor|].
  destruct (f x) eqn:Ef.
  - rewrite (Hfg x Ef). now constructor.
  - destruct (g x); [now constructor | exact IH].
Qed.

Lemma filter_nil_iff {A} (f : A -> bool) l :
  filter f l = [] <-> forall x, In x l -> f x = false.
Proof.
  induction l as [|x l IH]; simpl; [tauto|].
  destruct (f x) eqn:E.
  - split; [discriminate|]. intros H. specialize (H x (or_introl eq_refl)). congruence.
  - rewrite IH. split.
    + intros H y [<- | Hy]; auto.
    + intros H y Hy. apply H. now right.
Qed.

End Narrowing.

(** X1. For a search term of basic Latin text the case of its letters
    does not matter: two renders that differ only in the case of the
    letters of such a term show the same tasks, whatever the titles and
    descriptions hold. *)
Theorem search_term_case_blind (d d' : Dashboard.t) :
  tasks d' = tasks d ->
  statusFilter d' = statusFilter d ->
  priorityFilter d' = priorityFilter d ->
  isAscii (searchTerm d') ->
  equalIgnoringCase (searchTerm d') (searchTerm d) ->
  filteredTasks d' = filteredTasks d.
Proof.
  intros Ht Hs Hp Ha Hc.
  pose proof (equalIgnoringCase_ascii Hc Ha) as Ha'.
  apply equalIgnoringCase_foldCase in Hc.
  unfold filteredTasks.
  now rewrite Ht, Hs, Hp, (toLowerCase_ascii _ Ha), (toLowerCase_ascii _ Ha'), Hc.
Qed.

(** X2. Extending a search term of basic Latin text never brings a task
    back: when the new term is such text and holds the old one up to
    case, and the select filters are the same, the tasks shown are a
    subsequence of those shown before. *)
Theorem longer_search_narrows (d d' : Dashboard.t) :
  tasks d' = tasks d ->
  statusFilter d' = statusFilter d ->
  priorityFilter d' = priorityFilter d ->
  isAscii (searchTerm d') ->
  containsIgnoringCase (searchTerm d') (searchTerm d) ->
  Subsequence (filteredTasks d') (filteredTasks d).
Proof.
  intros Ht Hs Hp Ha Hc.
  assert (Ha' : isAscii (searchTerm d)).
  { destruct Hc as (x & y & z & E & F). rewrite E in Ha.
    apply isAscii_app in Ha as [_ Ha]. apply isAscii_app in Ha as [Ha _].
    exact (equalIgnoringCase_ascii F Ha). }
  apply (@includes_toLowerCase_ascii _ _ Ha Ha') in Hc.
  unfold filteredTasks. rewrite Ht, Hs, Hp.
  apply filter_narrower. intros task. cbv zeta.
  rewrite !andb_true_iff, !orb_true_iff.
  intros [[[H | H] Hst] Hpr]; repeat split; auto;
    [left | right]; eapply includes_trans; eauto.
Qed.

(** X3. The stat cards agree with the status filter: with no search term
    and every priority shown, filtering by a status shows as many tasks as
    the card of that status counts, and "all" shows as many as the total. *)
Theorem status_filter_matches_cards (d : Dashboard.t) :
  searchTerm d = "" ->
  priorityFilter d = "all" ->
  (statusFilter d = "completed" ->
   length (filteredTasks d) = TaskStats.completed (taskStats d))
  /\ (statusFilter d = "pending" ->
      length (filteredTasks d) = TaskStats.pending (taskStats d))
  /\ (statusFilter d = "in_progress" ->
      length (filteredTasks d) = TaskStats.inProgress (taskStats d))
  /\ (statusFilter d = "all" ->
      length (filteredTasks d) = TaskStats.total (taskStats d)).
Proof.
  intros Hs Hp.
  assert (H : forall s, statusFilter d = s -> (s =? "all") = false ->
            length (filteredTasks d)
            = length (filter (fun t => Task.status t =? s) (tasks d))).
  { intros s Hst Hne. unfold filteredTasks. rewrite Hs, Hp, Hst, Hne.
    f_equal. apply filter_ext. intros t.
    rewrite toLowerCase_empty, !includes_empty. cbn. now rewrite andb_true_r. }
  repeat split; intros Hst.
  - now apply H.
  - now apply H.
  - now apply H.
  - unfold taskStats, filteredTasks. cbn [TaskStats.total].
    rewrite Hs, Hp, Hst. f_equal. clear H.
    induction (tasks d) as [|t l IH]; cbn [filter]; [reflexivity|].
    rewrite IH, toLowerCase_empty. now rewrite includes_empty.
Qed.

(** X4. What stands where the task list goes: the spinner exactly while
    the loading flag is set; otherwise "No tasks yet" exactly when there is
    no task at all, "No tasks match your filters" exactly when there are
    tasks and none passes the filter, and cards exactly when some task
    passes, the cards then being the filtered tasks. *)
Theorem taskListView_cases (d : Dashboard.t) :
  let passes := passesFilter (searchTerm d) (statusFilter d) (priorityFilter d) in
  (taskListView d = ShowsSpinner <-> loading d = true)
  /\ (taskListView d = ShowsMessage "No tasks yet. Create your first task!"
      <-> loading d = false /\ tasks d = [])
  /\ (taskListView d = ShowsMessage "No tasks match your filters."
      <-> loading d = false /\ tasks d <> []
          /\ forall task, In task (tasks d) -> ~ passes task)
  /\ ((exists cards, taskListView d = ShowsCards cards)
      <-> loading d = false /\ exists task, In task (tasks d) /\ passes task)
  /\ (forall cards, taskListView d = ShowsCards cards -> cards = filteredTasks d).
Proof.
  intros passes.
  pose proof (Selects_In (filteredTasks_Selects d)) as Hin. fold passes in Hin.
  unfold taskListView.
  destruct (loading d).
  { split; [tauto | split; [| split; [| split]]].
    - split; [discriminate | intros [E _]; discriminate].
    - split; [discriminate | intros [E _]; discriminate].
    - split; [intros [c E]; discriminate | intros [E _]; discriminate].
    - discriminate. }
  destruct (filteredTasks d) as [|x l] eqn:Ef; cbn [length Nat.eqb].
  - assert (Hnone : forall task, In task (tasks d) -> ~ passes task).
    { intros task Ht Hp. now apply (Hin task). }
    destruct (tasks d) as [|y ts] eqn:Et; cbn [length Nat.eqb].
    + split; [split; discriminate | split; [tauto | split; [| split]]].
      * split; [discriminate | intros (_ & H & _); now elim H].
      * split; [intros [c H]; discriminate | intros (_ & task & [] & _)].
      * discriminate.
    + split; [split; discriminate | split; [| split; [| split]]].
      * split; [discriminate | intros [_ H]; discriminate].
      * split; [intros _; repeat split; [discriminate | exact Hnone]
               | reflexivity].
      * split; [intros [c H]; discriminate
               | intros (_ & task & Ht & Hp); now elim (Hnone task)].
      * discriminate.
  - assert (Hx : In x (tasks d) /\ passes x) by (apply Hin; now left).
    destruct Hx as [H1 H2].
    split; [split; discriminate | split; [| split; [| split]]].
    + split; [discriminate | intros [_ E]; rewrite E in H1; elim H1].
    + split; [discriminate | intros (_ & _ & H); now elim (H x)].
    + split; [intros _; split; [reflexivity | now exists x]
             | intros _; now eexists].
    + now intros cards [= <-].
Qed.

(** ** Every handler against an arbitrary remote service *)

Section MoreHandlers.

Variable World : Type.
Variable remote : forall c : Call, World -> Response (Data c) * World.

Ltac unfold_handlers :=
  unfold fire; cbn [bodyOf handlerOf];
  unfold submitTaskDialog, handleCreateTask, handleUpdateTask, handleDeleteTask,
    handleUpdateProfile, handleSignOut, openTaskDialog;
  unfold loadTasks, loadProfile.

(** Case analysis on everything a run branches on: the user, the task
    under edit, the title guard and the answers of the remote service. *)
Ltac crunch :=
  repeat first
    [ progress cbn
    | match goal with
      | |- context [remote ?c ?w] =>
          let dat := fresh "dat" in
          let e := fresh "e" in
          let w' := fresh "w'" in
          let E := fresh "Ans" in
          destruct (remote c w) as [[dat [e|]] w'] eqn:E
      | |- context [match user ?d with _ => _ end] =>
          let E := fresh "Usr" in destruct (user d) eqn:E
      | |- context [match editingTask ?d with _ => _ end] =>
          let E := fresh "Edt" in destruct (editingTask d) eqn:E
      | |- context [negb (Js.truthy ?s)] =>
          let E := fresh "Grd" in destruct (negb (Js.truthy s)) eqn:E
      | |- context [match ?o with Some _ => _ | None => _ end] =>
          let E := fresh "Opt" in destruct o eqn:E
      end ].

Ltac keeps_tac :=
  repeat first
    [ progress cbn
    | progress intros
    | split
    | reflexivity
    | exact I
    | match goal with
      | |- context [match ?x with _ => _ end] => destruct x
      end ].

(** A projection every reachable setter keeps is the same after a run. *)
Lemma run_keeps {A T} (f : Dashboard.t -> T) (p : Prog A) :
  keeps f p -> forall d w, f (Run.state (run remote p d w)) = f d.
Proof.
  induction p as [a | X e k IH]; intros H d w; [reflexivity|].
  destruct H as [He Hk]. cbn [run].
  destruct (answer remote e w) as [x w']. cbn [Run.state].
  rewrite (IH x (Hk x)). apply He.
Qed.

Lemma bodyOf_keeps_loading h d : keeps loading (bodyOf h d).
Proof. destruct h; unfold_handlers; keeps_tac. Qed.

Lemma bodyOf_keeps_side h d :
  if profileHandler h
  then keeps taskSide (bodyOf h d)
  else keeps profileSide (bodyOf h d).
Proof. destruct h; cbn [profileHandler]; unfold_handlers; keeps_tac. Qed.

Lemma loadTasks_keeps_dialog d :
  keeps (fun s => (user s, editingTask s, taskForm s, isTaskDialogOpen s))
        (loadTasks d).
Proof. unfold loadTasks. keeps_tac. Qed.

(** X5. Only the initial load raises the spinner: no other handler sets
    the loading flag, so a refresh, a submit, a delete, a profile save or
    a sign-out leaves the flag, and with it the choice between the spinner
    and the screen, as it was. *)
Theorem handlers_keep_loading (h : Handler) (d : Dashboard.t) (w : World) :
  loading (Run.state (fire remote (bodyOf h) d w)) = loading d
  /\ (taskListView (Run.state (fire remote (bodyOf h) d w)) = ShowsSpinner
      <-> taskListView d = ShowsSpinner).
Proof.
  pose proof (run_keeps _ _ (bodyOf_keeps_loading h d) d w) as H.
  split; [exact H|].
  unfold taskListView, fire. rewrite H.
  destruct (loading d); [tauto|].
  split; intros E;
    repeat match type of E with
           | context [if ?b then _ else _] => destruct b
           end; discriminate.
Qed.

(** X6. The task side and the profile side do not interfere: the handlers
    of the profile dialog and of sign-out leave the tasks, the task under
    edit, the task form and the task dialog alone, and the handlers of the
    task list leave the profile, the profile form and the profile dialog
    alone. *)
Theorem task_and_profile_sides_separate (h : Handler) (d : Dashboard.t)
  (w : World) :
  (profileHandler h = true ->
   taskSide (Run.state (fire remote (bodyOf h) d w)) = taskSide d)
  /\ (profileHandler h = false ->
      profileSide (Run.state (fire remote (bodyOf h) d w)) = profileSide d).
Proof.
  pose proof (bodyOf_keeps_side h d) as H.
  split; intros E; rewrite E in H; now apply run_keeps.
Qed.

Lemma quietAfterFailure_sound tr :
  quietAfterFailure tr = true ->
  forall pre c e post,
    tr = (pre ++ Called c (Some e) :: post)%list -> callsOf post = [].
Proof.
  intros H pre; revert tr H.
  induction pre as [|o pre IH]; intros tr H c e post ->.
  - cbn in H. apply Nat.eqb_eq in H. now apply length_zero_iff_nil.
  - destruct o as [c0 [e0|] | t | l e0]; cbn in H; try (eapply IH; eauto; fail).
    apply Nat.eqb_eq in H. exfalso. revert H.
    unfold callsOf. rewrite flat_map_app. cbn.
    rewrite length_app. cbn. lia.
Qed.

Lemma bodyOf_calls h d w :
  quietAfterFailure (Run.trace (fire remote (bodyOf h) d w)) = true
  /\ length (callsOf (Run.trace (fire remote (bodyOf h) d w))) <= 2.
Proof. destruct h; unfold_handlers; crunch; auto. Qed.

(** X7. No handler retries or carries on after a failure: in the trace of
    a run no remote call follows a failed one, and a run makes at most two
    remote calls. *)
Theorem no_call_after_failure (h : Handler) (d : Dashboard.t) (w : World) :
  (forall pre c e post,
     Run.trace (fire remote (bodyOf h) d w)
     = (pre ++ Called c (Some e) :: post)%list ->
     callsOf post = [])
  /\ length (callsOf (Run.trace (fire remote (bodyOf h) d w))) <= 2.
Proof.
  destruct (bodyOf_calls h d w) as [Q L]. split; [| exact L].
  now apply quietAfterFailure_sound.
Qed.


(** X9. The local task sequence is only ever replaced wholesale by what a
    successful list-tasks call returned: after any handler it is the
    sequence it was, or the rows (none, for an absent payload) of a
    list-tasks response without error for the signed-in user. *)
Theorem tasks_come_from_remote (h : Handler) (d : Dashboard.t) (w : World) :
  tasks (Run.state (fire remote (bodyOf h) d w)) = tasks d
  \/ exists u w0,
       user d = Some u
       /\ error (fst (remote (getTasks (User.id u)) w0)) = None
       /\ tasks (Run.state (fire remote (bodyOf h) d w))
          = match data (fst (remote (getTasks (User.id u)) w0)) with
            | Some rows => rows
            | None => []
            end.
Proof.
  destruct h; unfold_handlers; crunch; auto.
  all: right; eexists; eexists; split; [reflexivity|];
    match goal with
    | H : remote (getTasks _) ?w0 = _ |- _ =>
        instantiate (1 := w0); rewrite H; cbn; split; reflexivity
    end.
Qed.

(** A refresh reads nothing of the state cells and writes the tasks only:
    run from two states with the same tasks it leaves the same tasks, the
    same remote state and the same trace. *)
Lemma run_loadTasks_any_state d d1 d2 w :
  tasks d1 = tasks d2 ->
  tasks (Run.state (run remote (loadTasks d) d1 w))
  = tasks (Run.state (run remote (loadTasks d) d2 w))
  /\ Run.world (run remote (loadTasks d) d1 w)
     = Run.world (run remote (loadTasks d) d2 w)
  /\ Run.trace (run remote (loadTasks d) d1 w)
     = Run.trace (run remote (loadTasks d) d2 w).
Proof. intros H. unfold loadTasks. crunch; auto. Qed.

(** X10. Fetch after write: when the call of create, update or remove
    succeeds, the handler shows one success toast and then does exactly
    what a refresh does against the remote state the call left, so the
    tasks and the remote state after it are those after that refresh. *)
Theorem mutation_then_refresh (op : TaskOp) (d : Dashboard.t) (w : World)
  (c : Call) (rest : list Obs) :
  op <> Refresh ->
  Run.trace (fire remote (handlerOf op) d w) = Called c None :: rest ->
  (exists heading detail,
     rest = Toasted {| Toast.title := heading; Toast.description := detail;
                       Toast.variant := None |}
            :: Run.trace (fire remote loadTasks d (snd (remote c w))))
  /\ Run.world (fire remote (handlerOf op) d w)
     = Run.world (fire remote loadTasks d (snd (remote c w)))
  /\ tasks (Run.state (fire remote (handlerOf op) d w))
     = tasks (Run.state (fire remote loadTasks d (snd (remote c w)))).
Proof.
  intros Hop. unfold fire.
  destruct op as [| | |taskId]; [congruence | | |]; cbn [handlerOf];
    unfold handleCreateTask, handleUpdateTask, handleDeleteTask;
    [ destruct (user d) as [u|]; [|discriminate];
      destruct (negb _); [discriminate|]
    | destruct (editingTask d) as [task|]; [|discriminate]
    | ];
    cbn -[loadTasks];
    match goal with
    | |- context [remote ?c0 w] =>
        destruct (remote c0 w) as [[dat [e|]] w1] eqn:Ans
    end; cbn -[loadTasks]; intros [= <- <-]; rewrite Ans; cbn [snd];
    try match goal with
        | |- context [run remote (loadTasks d) ?d1 ?w'] =>
            tryif constr_eq d1 d then fail
            else destruct (run_loadTasks_any_state d d1 d w' eq_refl)
                as (T & W & R);
                 rewrite T, W, R
        end;
    (split; [do 2 eexists; reflexivity | split; reflexivity]).
Qed.

(** X11. After a submit whose call succeeded the task dialog is closed,
    the buffer is back to its defaults and no task is under edit, whatever
    the refresh that follows returns; pressing the submit button again in
    that state makes no remote call. *)
Theorem submit_success_clears_dialog (d : Dashboard.t) (w : World) (c : Call)
  (rest : list Obs) :
  Run.trace (fire remote submitTaskDialog d w) = Called c None :: rest ->
  taskForm (Run.state (fire remote submitTaskDialog d w)) = TaskForm.empty
  /\ isTaskDialogOpen (Run.state (fire remote submitTaskDialog d w)) = false
  /\ editingTask (Run.state (fire remote submitTaskDialog d w)) = None
  /\ forall w',
       fire remote submitTaskDialog
            (Run.state (fire remote submitTaskDialog d w)) w'
       = Run.Make (Run.state (fire remote submitTaskDialog d w)) w' [].
Proof.
  intros H.
  assert (K : taskForm (Run.state (fire remote submitTaskDialog d w))
              = TaskForm.empty
              /\ isTaskDialogOpen (Run.state (fire remote submitTaskDialog d w))
                 = false
              /\ editingTask (Run.state (fire remote submitTaskDialog d w))
                 = None).
  { revert H. unfold fire, submitTaskDialog.
    destruct (editingTask d) as [task|] eqn:Edt.
    - unfold handleUpdateTask. rewrite Edt. cbn -[loadTasks].
      match goal with
      | |- context [remote ?c0 w] => destruct (remote c0 w) as [[dat [e|]] w1]
      end; cbn -[loadTasks]; [discriminate | intros _].
      match goal with
      | |- context [run remote (loadTasks d) ?d1 ?w'] =>
          pose proof (run_keeps _ _ (loadTasks_keeps_dialog d) d1 w') as F
      end.
      injection F as _ F1 F2 F3. now rewrite F1, F2, F3.
    - unfold handleCreateTask. destruct (user d) as [u|]; [|discriminate].
      destruct (negb _); [discriminate|]. cbn -[loadTasks].
      match goal with
      | |- context [remote ?c0 w] => destruct (remote c0 w) as [[dat [e|]] w1]
      end; cbn -[loadTasks]; [discriminate | intros _].
      match goal with
      | |- context [run remote (loadTasks d) ?d1 ?w'] =>
          pose proof (run_keeps _ _ (loadTasks_keeps_dialog d) d1 w') as F
      end.
      injection F as _ F1 F2 F3. rewrite F1, F2, F3. cbn. auto. }
  destruct K as (K1 & K2 & K3). repeat split; auto.
  intros w'. unfold fire at 1. unfold submitTaskDialog at 1. rewrite K3.
  apply handleCreateTask_blank_title. rewrite K1. exact I.
Qed.

(** X12. Signed out, the loads, the create handler and the profile update
    do nothing at all: no remote call, no toast, no state change.  For
    [loadData] this means the loading flag is not cleared either. *)
Theorem signed_out_inert (d : Dashboard.t) (w : World) (order : bool) :
  user d = None ->
  fire remote loadTasks d w = Run.Make d w []
  /\ fire remote loadProfile d w = Run.Make d w []
  /\ fire remote handleCreateTask d w = Run.Make d w []
  /\ fire remote handleUpdateProfile d w = Run.Make d w []
  /\ fire remote (loadData order) d w = Run.Make d w [].
Proof.
  intros H. unfold fire, loadTasks, loadProfile, handleCreateTask,
    handleUpdateProfile, loadData. rewrite H. repeat split.
Qed.

(** X13. With no task under edit and a blank title in the buffer, the
    submit button of the task dialog does nothing: no remote call, no
    toast, no state change; the dialog stays open. *)
Theorem create_blank_title_inert (d : Dashboard.t) (w : World) :
  editingTask d = None ->
  blank (TaskForm.title (taskForm d)) ->
  fire remote submitTaskDialog d w = Run.Make d w [].
Proof.
  intros He Hb. unfold fire, submitTaskDialog. rewrite He.
  now apply handleCreateTask_blank_title.
Qed.

Lemma or_null_cases s :
  Js.or_null s = if string_dec s "" then None else Some s.
Proof. destruct s; reflexivity. Qed.

(** X14. What the create handler sends: the title, description, status and
    priority of the buffer as they are, the id of the signed-in user as
    owner, and as due date [null] for an empty date input and the input's
    string otherwise; it sends nothing unless the title is not blank. *)
Theorem create_sends_buffer (d : Dashboard.t) (w : World) (taskData : TaskData.t) :
  In (createTask taskData)
     (callsOf (Run.trace (fire remote handleCreateTask d w))) ->
  (exists u, user d = Some u /\ TaskData.user_id taskData = User.id u)
  /\ ~ blank (TaskForm.title (taskForm d))
  /\ TaskData.title taskData = TaskForm.title (taskForm d)
  /\ TaskData.description taskData = TaskForm.description (taskForm d)
  /\ TaskData.status taskData = TaskForm.status (taskForm d)
  /\ TaskData.priority taskData = TaskForm.priority (taskForm d)
  /\ TaskData.due_date taskData
     = if string_dec (TaskForm.due_date (taskForm d)) ""
       then None
       else Some (TaskForm.due_date (taskForm d)).
Proof.
  unfold_handlers. destruct (user d) as [u|]; [|intros []].
  destruct (negb (Js.truthy (Js.trim (TaskForm.title (taskForm d))))) eqn:Grd;
    [intros []|].
  assert (Hb : ~ blank (TaskForm.title (taskForm d))).
  { intros B. apply blank_guard in B. congruence. }
  crunch; intros HIn;
    repeat (destruct HIn as [HIn | HIn]; try discriminate); try contradiction;
    injection HIn as <-; cbn; rewrite or_null_cases; repeat split; eauto.
Qed.

Lemma or_string_empty s : Js.or_string s "" = s.
Proof. destruct s; reflexivity. Qed.

(** X15. A profile load that succeeds with a row stores the row and fills
    the profile form with exactly its first name, last name and email,
    silently; the button label is then the full name, or the placeholder
    when the first name is empty.  One that succeeds with no row changes
    nothing. *)
Theorem loadProfile_success (d : Dashboard.t) (w : World) (u : User.t) :
  user d = Some u ->
  (forall p,
     fst (remote (getProfile (User.id u)) w) = {| data := Some p; error := None |} ->
     profile (Run.state (fire remote loadProfile d w)) = Some p
     /\ profileForm (Run.state (fire remote loadProfile d w))
        = {| ProfileForm.first_name := Profile.first_name p;
             ProfileForm.last_name := Profile.last_name p;
             ProfileForm.email := Profile.email p |}
     /\ Run.trace (fire remote loadProfile d w)
        = [Called (getProfile (User.id u)) None]
     /\ profileLabel (Run.state (fire remote loadProfile d w))
        = if string_dec (Profile.first_name p) "" then "Profile"
          else Profile.first_name p ++ " " ++ Profile.last_name p)
  /\ (fst (remote (getProfile (User.id u)) w) = {| data := None; error := None |} ->
      Run.state (fire remote loadProfile d w) = d
      /\ Run.trace (fire remote loadProfile d w)
         = [Called (getProfile (User.id u)) None]).
Proof.
  intros Hu. unfold fire, loadProfile. rewrite Hu. cbn.
  destruct (remote (getProfile (User.id u)) w) as [r w']. cbn [fst].
  split.
  - intros p ->. cbn. rewrite !or_string_empty. repeat split.
    unfold profileLabel. cbn. destruct (Profile.first_name p); reflexivity.
  - intros ->. cbn. auto.
Qed.

(** X16. Saving the profile sends the profile form as it is for the
    signed-in user.  When that call succeeds, the handler closes the
    profile dialog, shows the success toast and reloads the profile; it
    never shows an error toast then, even if the reload fails. *)
Theorem handleUpdateProfile_success (d : Dashboard.t) (w : World) (u : User.t) :
  user d = Some u ->
  error (fst (remote (updateProfile (User.id u) (profileForm d)) w)) = None ->
  callsOf (Run.trace (fire remote handleUpdateProfile d w))
  = [updateProfile (User.id u) (profileForm d); getProfile (User.id u)]
  /\ toastsOf (Run.trace (fire remote handleUpdateProfile d w))
     = [{| Toast.title := "Profile updated";
           Toast.description := "Your profile has been updated successfully.";
           Toast.variant := None |}]
  /\ isProfileDialogOpen (Run.state (fire remote handleUpdateProfile d w)) = false.
Proof.
  intros Hu. unfold fire, handleUpdateProfile, loadProfile. rewrite Hu.
  crunch; intros [=]; repeat split.
Qed.

(** X17. Opening the dialog on a task and submitting at once sends an
    update for that task's id carrying the task's own title, description,
    status and priority, and as due date the task's date or the empty
    string when it has none. *)
Theorem open_edit_then_submit (d : Dashboard.t) (w w' : World) (t : Task.t) :
  Run.trace (fire remote (openTaskDialog (Some t)) d w) = []
  /\ isTaskDialogOpen (Run.state (fire remote (openTaskDialog (Some t)) d w))
     = true
  /\ exists rest,
       callsOf (Run.trace
                  (fire remote submitTaskDialog
                        (Run.state (fire remote (openTaskDialog (Some t)) d w))
                        w'))
       = updateTask (Task.id t)
           {| TaskForm.title := Task.title t;
              TaskForm.description := Task.description t;
              TaskForm.status := Task.status t;
              TaskForm.priority := Task.priority t;
              TaskForm.due_date :=
                match Task.due_date t with Some day => day | None => "" end |}
         :: rest.
Proof.
  repeat split.
  unfold fire, openTaskDialog, submitTaskDialog, handleUpdateTask.
  cbn -[loadTasks].
  assert (E : Js.nullable_or_string (Task.due_date t) ""
              = match Task.due_date t with Some day => day | None => "" end).
  { destruct (Task.due_date t) as [s|]; [apply or_string_empty | reflexivity]. }
  rewrite E.
  match goal with
  | |- context [remote ?c0 w'] => destruct (remote c0 w') as [[dat [e|]] w1]
  end; cbn -[loadTasks]; eauto.
Qed.

(** X18. The Add Task button always starts from a clean slate: whatever
    was under edit or left in the buffer, after it no task is under edit,
    the buffer holds its defaults and the dialog is open; submitting that
    dialog untouched makes no remote call. *)
Theorem open_new_resets_buffer (d : Dashboard.t) (w w' : World) :
  Run.trace (fire remote (openTaskDialog None) d w) = []
  /\ editingTask (Run.state (fire remote (openTaskDialog None) d w)) = None
  /\ taskForm (Run.state (fire remote (openTaskDialog None) d w))
     = TaskForm.empty
  /\ isTaskDialogOpen (Run.state (fire remote (openTaskDialog None) d w)) = true
  /\ fire remote submitTaskDialog
          (Run.state (fire remote (openTaskDialog None) d w)) w'
     = Run.Make (Run.state (fire remote (openTaskDialog None) d w)) w' [].
Proof.
  repeat split.
  unfold fire at 1. unfold submitTaskDialog. cbn [fire openTaskDialog].
  cbn -[handleCreateTask]. apply handleCreateTask_blank_title. exact I.
Qed.

(** X19. Signing out touches no state cell: the handler makes the one
    sign-out call, leaves every cell as it was, and shows a toast exactly
    when the call fails. *)
Theorem handleSignOut_keeps_state (d : Dashboard.t) (w : World) :
  Run.state (fire remote handleSignOut d w) = d
  /\ callsOf (Run.trace (fire remote handleSignOut d w)) = [signOut]
  /\ (toastsOf (Run.trace (fire remote handleSignOut d w)) = []
      <-> error (fst (remote signOut w)) = None).
Proof.
  unfold fire, handleSignOut. cbn.
  destruct (remote signOut w) as [[dat [e|]] w1]; cbn; repeat split;
    discriminate.
Qed.

(** The two loads await once: called, each runs straight to its request,
    or returns at once when signed out, and what follows the response
    awaits nothing.  This is what [promiseAll2] asks of its arguments. *)
Lemma loads_await_once d :
  match start (loadTasks d) with
  | Ret (Awaiting c k) =>
      (exists u, user d = Some u /\ c = getTasks (User.id u))
      /\ forall r, awaitFree (k r)
  | Ret (Finished _) => user d = None
  | Do _ _ => False
  end
  /\ match start (loadProfile d) with
     | Ret (Awaiting c k) =>
         (exists u, user d = Some u /\ c = getProfile (User.id u))
         /\ forall r, awaitFree (k r)
     | Ret (Finished _) => user d = None
     | Do _ _ => False
     end.
Proof.
  unfold loadTasks, loadProfile.
  destruct (user d) as [u|]; cbn; [|auto].
  split; (split; [eauto|]); intros [dat [e|]]; cbn; auto.
  destruct dat; cbn; auto.
Qed.

(** X20. The initial load of a signed-in render asks for the tasks and then
    for the profile, and in whichever order the two responses arrive it
    ends with the loading flag cleared, the tasks a refresh alone would
    have left, and the profile cells a profile load alone would have left
    against the remote state after the list-tasks call. *)
Theorem loadData_settles (d : Dashboard.t) (w : World) (u : User.t)
  (order : bool) :
  user d = Some u ->
  loading (Run.state (fire remote (loadData order) d w)) = false
  /\ callsOf (Run.trace (fire remote (loadData order) d w))
     = [getTasks (User.id u); getProfile (User.id u)]
  /\ tasks (Run.state (fire remote (loadData order) d w))
     = tasks (Run.state (fire remote loadTasks d w))
  /\ profileSide (Run.state (fire remote (loadData order) d w))
     = profileSide (Run.state (fire remote loadProfile d
                                    (Run.world (fire remote loadTasks d w))))
  /\ Run.world (fire remote (loadData order) d w)
     = Run.world (fire remote loadProfile d
                       (Run.world (fire remote loadTasks d w))).
Proof.
  intros Hu. unfold fire, loadData, promiseAll2, loadTasks, loadProfile.
  rewrite Hu. destruct order; crunch; repeat split.
Qed.

(** X21. The order in which the two responses of the initial load arrive
    does not matter for what it leaves: the state cells, the remote state,
    the calls made, the toasts shown and the console lines are the same
    either way. *)
Theorem loadData_order_irrelevant (d : Dashboard.t) (w : World) :
  Run.state (fire remote (loadData true) d w)
  = Run.state (fire remote (loadData false) d w)
  /\ Run.world (fire remote (loadData true) d w)
     = Run.world (fire remote (loadData false) d w)
  /\ callsOf (Run.trace (fire remote (loadData true) d w))
     = callsOf (Run.trace (fire remote (loadData false) d w))
  /\ toastsOf (Run.trace (fire remote (loadData true) d w))
     = toastsOf (Run.trace (fire remote (loadData false) d w))
  /\ logsOf (Run.trace (fire remote (loadData true) d w))
     = logsOf (Run.trace (fire remote (loadData false) d w)).
Proof.
  unfold fire, loadData, promiseAll2, loadTasks, loadProfile.
  crunch; repeat split.
Qed.

End MoreHandlers.

(** ** Concrete runs of the further properties *)

Lemma search_term_case_blind_witness :
  filteredTasks (withFilters "SPEC" "all" "all" sampleDashboard)
  = filteredTasks (withFilters "spec" "all" "all" sampleDashboard).
Proof.
  apply search_term_case_blind; try reflexivity.
  - cbv. repeat split.
  - apply equalIgnoringCase_foldCase. reflexivity.
Defined.

Lemma longer_search_narrows_witness :
  Subsequence (filteredTasks (withFilters "SPE" "all" "all" sampleDashboard))
              (filteredTasks (withFilters "sp" "all" "all" sampleDashboard)).
Proof.
  apply longer_search_narrows; try reflexivity.
  - cbv. repeat split.
  - apply containsIgnoringCase_foldCase. reflexivity.
Defined.

Lemma status_filter_matches_cards_witness :
  length (filteredTasks (withFilters "" "pending" "all" sampleDashboard))
  = TaskStats.pending (taskStats (withFilters "" "pending" "all" sampleDashboard)).
Proof.
  apply (proj1 (proj2 (status_filter_matches_cards
                         (withFilters "" "pending" "all" sampleDashboard)
                         eq_refl eq_refl))).
  reflexivity.
Defined.

Lemma taskListView_cases_witness :
  taskListView (setState (setLoading false) (Dashboard.initial None))
  = ShowsMessage "No tasks yet. Create your first task!".
Proof.
  apply (proj1 (proj2 (taskListView_cases
                         (setState (setLoading false) (Dashboard.initial None))))).
  split; reflexivity.
Defined.

Lemma task_and_profile_sides_separate_witness :
  taskSide (Run.state (fire Stub.remote (bodyOf OnLoadProfile) sampleDashboard
                            serviceWithProfile))
  = taskSide sampleDashboard.
Proof.
  apply (proj1 (task_and_profile_sides_separate Stub.remote OnLoadProfile
                  sampleDashboard serviceWithProfile)).
  reflexivity.
Defined.

Lemma no_call_after_failure_witness :
  callsOf [Toasted (errorToast "Error creating task"
                      {| message := "connection refused" |})]
  = [].
Proof.
  eapply (proj1 (no_call_after_failure Stub.remote OnCreateTask creatingShip
                   serviceDown)) with (pre := []).
  reflexivity.
Defined.


Lemma mutation_then_refresh_witness :
  tasks (Run.state (fire Stub.remote (handlerOf Create) creatingShip serviceUp))
  = [sampleTask; doneTask].
Proof.
  assert (H : Create <> Refresh) by discriminate.
  exact (proj2 (proj2 (mutation_then_refresh Stub.remote (op := Create)
                         creatingShip serviceUp
                         (c := createTask (TaskData.Make "Ship" "" "pending"
                                                         "medium" None "u1"))
                         (rest := [Toasted (successToast "Task created"
                                     "Your task has been created successfully.");
                                   Called (getTasks "u1") None])
                         H eq_refl))).
Defined.

Lemma submit_success_clears_dialog_witness :
  taskForm (Run.state (fire Stub.remote submitTaskDialog creatingShip serviceUp))
  = TaskForm.empty.
Proof.
  apply (proj1 (submit_success_clears_dialog Stub.remote creatingShip serviceUp
                  (c := createTask (TaskData.Make "Ship" "" "pending" "medium"
                                                  None "u1"))
                  (rest := [Toasted (successToast "Task created"
                              "Your task has been created successfully.");
                            Called (getTasks "u1") None])
                  eq_refl)).
Defined.

Lemma signed_out_inert_witness :
  fire Stub.remote (loadData true) (Dashboard.initial None) serviceUp
  = Run.Make (Dashboard.initial None) serviceUp [].
Proof.
  apply (signed_out_inert Stub.remote (Dashboard.initial None) serviceUp true).
  reflexivity.
Defined.

Lemma create_blank_title_inert_witness :
  fire Stub.remote submitTaskDialog sampleDashboard serviceUp
  = Run.Make sampleDashboard serviceUp [].
Proof.
  apply (create_blank_title_inert Stub.remote sampleDashboard serviceUp).
  - reflexivity.
  - exact I.
Defined.

Lemma create_sends_buffer_witness :
  TaskData.due_date
    (TaskData.Make "Ship" "" "pending" "medium" None "u1")
  = if string_dec (TaskForm.due_date (taskForm creatingShip)) ""
    then None
    else Some (TaskForm.due_date (taskForm creatingShip)).
Proof.
  apply (create_sends_buffer Stub.remote creatingShip serviceUp
           (TaskData.Make "Ship" "" "pending" "medium" None "u1")).
  left. reflexivity.
Defined.

Lemma loadProfile_success_witness :
  profile (Run.state (fire Stub.remote loadProfile sampleDashboard
                           serviceWithProfile))
  = Some sampleProfile.
Proof.
  apply (proj1 (loadProfile_success Stub.remote sampleDashboard
                  serviceWithProfile (u := sampleUser) eq_refl)
               sampleProfile).
  reflexivity.
Defined.

Lemma handleUpdateProfile_success_witness :
  callsOf (Run.trace (fire Stub.remote handleUpdateProfile sampleDashboard
                           serviceWithProfile))
  = [updateProfile "u1" (profileForm sampleDashboard); getProfile "u1"].
Proof.
  apply (handleUpdateProfile_success Stub.remote sampleDashboard
           serviceWithProfile (u := sampleUser)); reflexivity.
Defined.

Lemma loadData_settles_witness :
  loading (Run.state (fire Stub.remote (loadData false) sampleDashboard
                           serviceWithProfile))
  = false.
Proof.
  apply (loadData_settles Stub.remote sampleDashboard serviceWithProfile
           (u := sampleUser) false).
  reflexivity.
Defined.
